(** * spotify-md: the now-playing card of [api/spotify.py]

    A shallow embedding of the request pipeline of [api/spotify.py]
    ([get], [extract_colors], [getTemplate], [loadImageB64], [makeSVG],
    [catch_all]) together with the properties of its status resolution,
    field extraction, artwork handling and template selection.

    Python values that come out of [json.loads] are the inductive type
    [Py.value]; the dynamic operations the script applies to them
    (truthiness, [.get], subscripting, [in], [.replace]) are total functions
    into an error type that records the exception Python raises. *)

From Stdlib Require Import ZArith NArith List String Ascii Bool Lia.
From Stdlib.Strings Require Import Byte.
Import ListNotations.
#[local] Set Warnings "-register-all".
Local Open Scope string_scope.
Local Open Scope Z_scope.

(** ** Exceptions and results *)

Inductive exn : Type :=
| AttributeError
| KeyError
| IndexError
| TypeError
| FileNotFoundError
| JSONDecodeError
| RequestException      (* requests.exceptions.RequestException and subclasses *)
| OtherException.       (* any other subclass of Exception *)

Inductive result (A : Type) : Type :=
| Ok (a : A)
| Raise (e : exn).
Arguments Ok {A} a.
Arguments Raise {A} e.

Definition rbind {A B} (r : result A) (k : A -> result B) : result B :=
  match r with
  | Ok a => k a
  | Raise e => Raise e
  end.

Declare Scope result_scope.
Delimit Scope result_scope with res.
Notation "x <- r ;; k" := (rbind r (fun x => k))
  (at level 61, r at next level, right associativity) : result_scope.

Definition is_ok {A} (r : result A) : bool :=
  match r with Ok _ => true | Raise _ => false end.

(** ** Python values and the dynamic operations used by the script *)

Module Py.

(** Values produced by [json.loads].  JSON numbers are modelled as
    integers; a JSON object is the association list of its items, looked up
    by key.  A string is its sequence of bytes: indexing and length agree
    with Python's on ASCII text. *)
Inductive value : Type :=
| JNull
| JBool (b : bool)
| JInt (z : Z)
| JStr (s : string)
| JArr (xs : list value)
| JObj (kvs : list (string * value)).

Fixpoint assoc (k : string) (kvs : list (string * value)) : option value :=
  match kvs with
  | [] => None
  | (k', v) :: rest => if String.eqb k k' then Some v else assoc k rest
  end.

(** [bool(v)]: the truth value Python's [not], [and] and [if] test. *)
Definition truthy (v : value) : bool :=
  match v with
  | JNull => false
  | JBool b => b
  | JInt z => negb (z =? 0)
  | JStr s => negb (String.eqb s "")
  | JArr xs => match xs with [] => false | _ => true end
  | JObj kvs => match kvs with [] => false | _ => true end
  end.

(** [isinstance(v, dict)] *)
Definition is_dict (v : value) : bool :=
  match v with JObj _ => true | _ => false end.

(** [v.get(key, default)]: only dictionaries have the method. *)
Definition get_default (v : value) (key : string) (default : value)
  : result value :=
  match v with
  | JObj kvs => Ok (match assoc key kvs with Some x => x | None => default end)
  | _ => Raise AttributeError
  end.

(** [v.get(key)], whose default is [None]. *)
Definition get (v : value) (key : string) : result value :=
  get_default v key JNull.

(** An integer index into a sequence of length [len]: negative indices
    count from the end. *)
Definition norm_index (i : Z) (len : nat) : option nat :=
  let n := Z.of_nat len in
  if (0 <=? i) && (i <? n) then Some (Z.to_nat i)
  else if (i <? 0) && (0 <=? i + n) then Some (Z.to_nat (i + n))
  else None.

Definition char_at (s : string) (n : nat) : option string :=
  match String.get n s with
  | Some c => Some (String c EmptyString)
  | None => None
  end.

Definition index_seq (v : value) (i : Z) : result value :=
  match v with
  | JArr xs =>
      match norm_index i (List.length xs) with
      | Some n => match nth_error xs n with
                  | Some x => Ok x
                  | None => Raise IndexError
                  end
      | None => Raise IndexError
      end
  | JStr s =>
      match norm_index i (String.length s) with
      | Some n => match char_at s n with
                  | Some c => Ok (JStr c)
                  | None => Raise IndexError
                  end
      | None => Raise IndexError
      end
  | _ => Raise TypeError
  end.

(** [v[k]] for an arbitrary key value [k]. *)
Definition subscript (v k : value) : result value :=
  match v with
  | JObj kvs =>
      match k with
      | JStr s => match assoc s kvs with
                  | Some x => Ok x
                  | None => Raise KeyError
                  end
      | JArr _ | JObj _ => Raise TypeError      (* unhashable key *)
      | _ => Raise KeyError
      end
  | JArr _ | JStr _ =>
      match k with
      | JInt i => index_seq v i
      | JBool b => index_seq v (if b then 1 else 0)
      | _ => Raise TypeError
      end
  | _ => Raise TypeError                        (* not subscriptable *)
  end.

(** [v["key"]] and [v[i]] with literal keys. *)
Definition item_str (v : value) (key : string) : result value :=
  subscript v (JStr key).
Definition item_int (v : value) (i : Z) : result value :=
  subscript v (JInt i).

(** [a == b] on parsed JSON.  [True == 1] and [False == 0] as in Python;
    two dictionaries are equal when they have the same items, whatever the
    order (object keys are unique after [json.loads]). *)
Fixpoint py_eq (a b : value) {struct a} : bool :=
  match a, b with
  | JNull, JNull => true
  | JBool x, JBool y => Bool.eqb x y
  | JBool x, JInt z | JInt z, JBool x => (if x then 1 else 0) =? z
  | JInt x, JInt y => x =? y
  | JStr s, JStr t => String.eqb s t
  | JArr xs, JArr ys =>
      (fix all2 (l : list value) (r : list value) : bool :=
         match l, r with
         | [], [] => true
         | x :: l', y :: r' => py_eq x y && all2 l' r'
         | _, _ => false
         end) xs ys
  | JObj kvs, JObj kws =>
      Nat.eqb (List.length kvs) (List.length kws) &&
      (fix sub (l : list (string * value)) : bool :=
         match l with
         | [] => true
         | (k, v) :: l' =>
             match assoc k kws with
             | Some w => py_eq v w
             | None => false
             end && sub l'
         end) kvs
  | _, _ => false
  end.

(** [needle in hay] on strings: substring test. *)
Fixpoint substring_in (needle hay : string) : bool :=
  String.prefix needle hay ||
  match hay with
  | EmptyString => false
  | String _ hay' => substring_in needle hay'
  end.

(** [x in v] *)
Definition contains (x v : value) : result bool :=
  match v with
  | JObj kvs =>
      match x with
      | JStr s => Ok (match assoc s kvs with Some _ => true | None => false end)
      | JArr _ | JObj _ => Raise TypeError      (* unhashable *)
      | _ => Ok false
      end
  | JArr xs => Ok (existsb (py_eq x) xs)
  | JStr hay =>
      match x with
      | JStr needle => Ok (substring_in needle hay)
      | _ => Raise TypeError
      end
  | _ => Raise TypeError                        (* not iterable *)
  end.

(** [s.replace(old, new)]: every non-overlapping occurrence of [old], left
    to right.  [skip] counts the characters of a match still to be dropped. *)
Fixpoint replace_from (old new s : string) (skip : nat) : string :=
  match s with
  | EmptyString => EmptyString
  | String c s' =>
      match skip with
      | S n => replace_from old new s' n
      | O =>
          if String.prefix old s
          then new ++ replace_from old new s' (String.length old - 1)
          else String c (replace_from old new s' O)
      end
  end.

Fixpoint intersperse (new s : string) : string :=
  match s with
  | EmptyString => new
  | String c s' => new ++ String c (intersperse new s')
  end.

Definition str_replace (old new s : string) : string :=
  match old with
  | EmptyString => intersperse new s
  | _ => replace_from old new s O
  end.

(** [v.replace(old, new)]: only strings have the method. *)
Definition replace (v : value) (old new : string) : result value :=
  match v with
  | JStr s => Ok (JStr (str_replace old new s))
  | _ => Raise AttributeError
  end.

End Py.

Import Py.

(** ** [base64.b64encode] *)

Module Base64.

Definition alphabet : string :=
  "ABCDEFGHIJKLMNOPQRSTUVWXYZabcdefghijklmnopqrstuvwxyz0123456789+/".

Definition digit (n : N) : ascii :=
  match String.get (N.to_nat n) alphabet with
  | Some c => c
  | None => "="%char
  end.

Definition pad : ascii := "="%char.

(** Three input bytes give four digits; a final group of one or two bytes
    is padded with [=]. *)
Fixpoint b64encode (bs : list byte) : string :=
  match bs with
  | [] => EmptyString
  | [a] =>
      let x := Byte.to_N a in
      String (digit (x / 4))
        (String (digit ((x mod 4) * 16))
           (String pad (String pad EmptyString)))
  | [a; b] =>
      let x := Byte.to_N a in
      let y := Byte.to_N b in
      String (digit (x / 4))
        (String (digit ((x mod 4) * 16 + y / 16))
           (String (digit ((y mod 16) * 4))
              (String pad EmptyString)))
  | a :: b :: c :: rest =>
      let x := Byte.to_N a in
      let y := Byte.to_N b in
      let z := Byte.to_N c in
      String (digit (x / 4))
        (String (digit ((x mod 4) * 16 + y / 16))
           (String (digit ((y mod 16) * 4 + z / 64))
              (String (digit (z mod 64)) (b64encode rest))))
  end%N.

End Base64.

(** ** The outside world

    What the script obtains from the network, the file system and its
    libraries.  [requests_get n url] is the outcome of the [n]-th call of
    [requests.get] in a request, so that two fetches of one URL may differ. *)

Definition palette : Type := list (Z * Z * Z).

Inductive http_outcome : Type :=
| HttpRaise             (* requests.get raised one of its RequestExceptions *)
| HttpResponse (status_code : Z) (content : list byte).

Record DataDict : Type := mkDataDict {
  artistName : value;
  songName : value;
  songURI : value;
  artistURI : value;
  image : string;
  status : string;
  background_color : string;
  border_color : string;
  songPalette : palette
}.

Record World : Type := mkWorld {
  requests_get : nat -> value -> http_outcome;
  response_json : list byte -> option value;    (* None: the body is not JSON *)
  read_file : string -> result string;          (* open(path, "r").read() *)
  json_loads : string -> option value;          (* None: JSONDecodeError *)
  get_palette : list byte -> Z -> option palette; (* None: ColorThief raised *)
  render_template : value -> DataDict -> result string
}.

(** ** Computations: a call counter threaded through fallible steps *)

Definition M (A : Type) : Type := nat -> result A * nat.

Definition ret {A} (a : A) : M A := fun n => (Ok a, n).
Definition raise {A} (e : exn) : M A := fun n => (Raise e, n).
Definition lift {A} (r : result A) : M A := fun n => (r, n).

Definition bind {A B} (m : M A) (k : A -> M B) : M B :=
  fun n =>
    match m n with
    | (Ok a, n') => k a n'
    | (Raise e, n') => (Raise e, n')
    end.

(** [try: body  except ...: handler]; a handler that does not catch [e]
    re-raises it. *)
Definition try_except {A} (body : M A) (handler : exn -> M A) : M A :=
  fun n =>
    match body n with
    | (Ok a, n') => (Ok a, n')
    | (Raise e, n') => handler e n'
    end.

Definition run {A} (m : M A) : result A := fst (m O).

Declare Scope m_scope.
Delimit Scope m_scope with M.
Notation "x <- m ;; k" := (bind m (fun x => k))
  (at level 61, m at next level, right associativity) : m_scope.
Notation "' pat <- m ;; k" := (bind m (fun x => match x with pat => k end))
  (at level 61, pat pattern, m at next level, right associativity) : m_scope.

(** ** The script *)

Module Spotify.

Definition PLACEHOLDER_URL : string := "https://picsum.photos/300/300".
Definition FALLBACK_THEME : string := "spotify.html.j2".
Definition NOW_PLAYING_URL : string := "https://api-spotifyx.notcoderguy.com/".

(** The palette substituted at line 143 when no colours were extracted. *)
Definition DEFAULT_PALETTE : palette := [(50, 50, 50); (100, 100, 100)].

Record Request : Type := mkRequest {
  arg_background_color : option string;
  arg_border_color : option string;
  arg_theme : option string
}.

(** [resp_headers] lists the headers the view sets itself (line 184); the
    Content-Type and Content-Length that the framework derives from the
    media type and the body are not listed. *)
Record Response : Type := mkResponse {
  resp_status : Z;
  resp_body : string;
  resp_mimetype : string;
  resp_headers : list (string * string)
}.

(** [request.args.get(key, default)] *)
Definition arg_default (a : option string) (default : string) : string :=
  match a with Some s => s | None => default end.

(** A query argument as a Python value: a string or [None]. *)
Definition arg_value (a : option string) : value :=
  match a with Some s => JStr s | None => JNull end.

Section Program.

Variable w : World.

Local Open Scope m_scope.

(** [requests.get(url)]: consumes one call of the world. *)
Definition http_get (url : value) : M (Z * list byte) :=
  fun n =>
    match requests_get w n url with
    | HttpRaise => (Raise RequestException, S n)
    | HttpResponse code content => (Ok (code, content), S n)
    end.

(** [response.raise_for_status()]: HTTPError for 4xx and 5xx. *)
Definition raise_for_status (code : Z) : M unit :=
  if (400 <=? code) && (code <? 600) then raise RequestException else ret tt.

(** Lines 19-28. *)
Definition get (url : value) : M value :=
  '(code, content) <- http_get url ;;
  if code =? 200 then
    match response_json w content with
    | Some v => ret v
    | None => raise JSONDecodeError
    end
  else ret JNull.

(** Lines 30-42; [None] is Python's [None]. *)
Definition extract_colors (albumArtURL : value) (color_count : Z)
  : M (option palette) :=
  try_except
    ('(code, content) <- http_get albumArtURL ;;
     _ <- raise_for_status code ;;
     match get_palette w content color_count with
     | Some p => ret (Some p)
     | None => raise OtherException
     end)
    (fun e =>
       match e with
       | RequestException => ret None
       | _ => ret None
       end).

(** Lines 45-72, the body of the [try]. *)
Definition getTemplate_try (theme_name : value) : result value :=
  (content <- read_file w "api/templates.json" ;;
   templates_config <- match json_loads w content with
                       | Some v => Ok v
                       | None => Raise JSONDecodeError
                       end ;;
   available_templates <- Py.get_default templates_config "templates" (JObj []) ;;
   requested <- (if truthy theme_name
                 then contains theme_name available_templates
                 else Ok false) ;;
   if requested : bool then subscript available_templates theme_name
   else
     current_theme_name <- Py.get templates_config "current-theme" ;;
     current <- (if truthy current_theme_name
                 then contains current_theme_name available_templates
                 else Ok false) ;;
     if current : bool then subscript available_templates current_theme_name
     else Ok (JStr FALLBACK_THEME))%res.

(** Lines 45-72: every handler returns the fallback. *)
Definition getTemplate (theme_name : value) : value :=
  match getTemplate_try theme_name with
  | Ok template => template
  | Raise FileNotFoundError => JStr FALLBACK_THEME
  | Raise JSONDecodeError => JStr FALLBACK_THEME
  | Raise _ => JStr FALLBACK_THEME
  end.

(** Lines 74-81: only [RequestException] is caught. *)
Definition loadImageB64 (url : value) : M (option string) :=
  try_except
    ('(code, content) <- http_get url ;;
     _ <- raise_for_status code ;;
     ret (Some (Base64.b64encode content)))
    (fun e =>
       match e with
       | RequestException => ret None
       | _ => raise e
       end).

(** Lines 86-123: the status keyword and the item.  The other assignments
    of these branches ([image], [songPalette], the ["N/A"] names and the
    ["#"] links) are all overwritten at lines 127-151 before they are read. *)
Definition resolve_status (data : value) : result (string * value) :=
  (if negb (truthy data) then Ok ("offline", JNull)
   else
     is_playing <- Py.get_default data "is_playing" (JBool false) ;;
     if negb (truthy is_playing) then
       probe <- Py.get data "item" ;;
       item <- (if is_dict probe then Py.get data "item" else Ok JNull) ;;
       if negb (truthy item) then Ok ("recent", JNull)
       else Ok ("recent", item)
     else
       probe <- Py.get data "item" ;;
       item <- (if is_dict probe then Py.get data "item" else Ok JNull) ;;
       if negb (truthy item) then Ok ("offline", JNull)
       else Ok ("playing", item))%res.

(** Line 127: [item and item.get("album") and item["album"].get("images")]. *)
Definition has_artwork (item : value) : result bool :=
  (if truthy item then
     album <- Py.get item "album" ;;
     if truthy album then
       album' <- item_str item "album" ;;
       images <- Py.get album' "images" ;;
       Ok (truthy images)
     else Ok false
   else Ok false)%res.

(** Line 128: [item["album"]["images"][1]["url"]]. *)
Definition artwork_url (item : value) : result value :=
  (album <- item_str item "album" ;;
   images <- item_str album "images" ;;
   medium <- item_int images 1 ;;
   item_str medium "url")%res.

(** Lines 129-130 and 134-135: the two fetches of the chosen URL. *)
Definition fetch_artwork (image_url : value)
  : M (option string * option palette) :=
  image <- loadImageB64 image_url ;;
  songPalette <- extract_colors image_url 2 ;;
  ret (image, songPalette).

(** Lines 127-143. *)
Definition resolve_artwork (item : value) : M (string * palette) :=
  cond <- lift (has_artwork item) ;;
  '(image, songPalette) <-
     (if cond : bool then
        image_url <- lift (artwork_url item) ;;
        fetch_artwork image_url
      else
        fetch_artwork (JStr PLACEHOLDER_URL)) ;;
  let image := match image with Some b => b | None => "" end in
  let songPalette :=
    match songPalette with Some p => p | None => DEFAULT_PALETTE end in
  ret (image, songPalette).

(** Line 148. *)
Definition extract_artistName (item : value) : result value :=
  (cond <- (if truthy item
            then artists <- Py.get item "artists" ;; Ok (truthy artists)
            else Ok false) ;;
   if cond : bool then
     artists <- item_str item "artists" ;;
     first <- item_int artists 0 ;;
     name <- item_str first "name" ;;
     Py.replace name "&" "&"
   else Ok (JStr "Unknown Artist"))%res.

(** Line 149. *)
Definition extract_songName (item : value) : result value :=
  (cond <- (if truthy item
            then name <- Py.get item "name" ;; Ok (truthy name)
            else Ok false) ;;
   if cond : bool then
     name <- item_str item "name" ;;
     Py.replace name "&" "&"
   else Ok (JStr "Unknown Song"))%res.

(** Line 150. *)
Definition extract_songURI (item : value) : result value :=
  (cond <- (if truthy item
            then urls <- Py.get item "external_urls" ;; Ok (truthy urls)
            else Ok false) ;;
   if cond : bool then
     urls <- item_str item "external_urls" ;;
     item_str urls "spotify"
   else Ok (JStr "#"))%res.

(** Line 151. *)
Definition extract_artistURI (item : value) : result value :=
  (cond <- (if truthy item then
              artists <- Py.get item "artists" ;;
              if truthy artists then
                artists' <- item_str item "artists" ;;
                first <- item_int artists' 0 ;;
                urls <- Py.get first "external_urls" ;;
                Ok (truthy urls)
              else Ok false
            else Ok false) ;;
   if cond : bool then
     artists <- item_str item "artists" ;;
     first <- item_int artists 0 ;;
     urls <- item_str first "external_urls" ;;
     item_str urls "spotify"
   else Ok (JStr "#"))%res.

(** The four assignments of lines 148-151, in order. *)
Definition extract_fields (item : value)
  : result (value * value * value * value) :=
  (artistName <- extract_artistName item ;;
   songName <- extract_songName item ;;
   songURI <- extract_songURI item ;;
   artistURI <- extract_artistURI item ;;
   Ok (artistName, songName, songURI, artistURI))%res.

(** Lines 84-164: [makeSVG] up to the dictionary handed to the template. *)
Definition makeSVG_dataDict (data : value) (background_color border_color : string)
  : M DataDict :=
  '(currentStatus, item) <- lift (resolve_status data) ;;
  '(image, songPalette) <- resolve_artwork item ;;
  '(artistName, songName, songURI, artistURI) <- lift (extract_fields item) ;;
  ret {| artistName := artistName;
         songName := songName;
         songURI := songURI;
         artistURI := artistURI;
         image := image;
         status := currentStatus;
         background_color := background_color;
         border_color := border_color;
         songPalette := songPalette |}.

(** Lines 84-167. *)
Definition makeSVG (data : value) (background_color border_color : string)
    (theme_name : value) : M string :=
  dataDict <- makeSVG_dataDict data background_color border_color ;;
  let template_file := getTemplate theme_name in
  lift (render_template w template_file dataDict).

(** Lines 173-186. *)
Definition catch_all (req : Request) : M Response :=
  let background_color := arg_default (arg_background_color req) "181414" in
  let border_color := arg_default (arg_border_color req) "181414" in
  let theme_name := arg_value (arg_theme req) in
  data <- get (JStr NOW_PLAYING_URL) ;;
  svg <- makeSVG data background_color border_color theme_name ;;
  ret {| resp_status := 200;
         resp_body := svg;
         resp_mimetype := "image/svg+xml";
         resp_headers :=
           [("Cache-Control", "s-maxage=1, stale-while-revalidate")] |}.

(** What the HTTP caller sees: Flask answers an exception that escapes the
    view function with 500 Internal Server Error. *)
Definition serve (req : Request) : Response :=
  match run (catch_all req) with
  | Ok resp => resp
  | Raise _ =>
      {| resp_status := 500;
         resp_body := "Internal Server Error";
         resp_mimetype := "text/html";
         resp_headers := [] |}
  end.

End Program.
End Spotify.

Import Spotify.

(** * Properties *)

(** ** Worked examples *)

Module Examples.

(** The payload of the end-to-end scenario: a playing track with two
    images. *)
Definition track_a : value :=
  JObj [("name", JStr "Song A");
        ("artists",
         JArr [JObj [("name", JStr "Artist A");
                     ("external_urls", JObj [("spotify", JStr "u1")])]]);
        ("album", JObj [("images", JArr [JObj [("url", JStr "big")];
                                        JObj [("url", JStr "img")]])]);
        ("external_urls", JObj [("spotify", JStr "u2")])].

Definition payload_a : value :=
  JObj [("is_playing", JBool true); ("item", track_a)].

(** A world in which every fetch succeeds with the bytes "Man", the
    palette extractor answers two fixed colours, and the registry file maps
    one theme. *)
Definition man : list byte := [x4d; x61; x6e].

Definition registry_a : value :=
  JObj [("templates", JObj [("dark", JStr "dark.html.j2");
                            ("light", JStr "light.html.j2")]);
        ("current-theme", JStr "light")].

Definition world_up (payload : value) : World :=
  {| requests_get := fun _ _ => HttpResponse 200 man;
     response_json := fun _ => Some payload;
     read_file := fun _ => Ok "{...}";
     json_loads := fun _ => Some registry_a;
     get_palette := fun _ _ => Some [(1, 2, 3); (4, 5, 6)];
     render_template := fun _ _ => Ok "<svg/>" |}.

(** A world in which nothing can be reached and no registry file exists. *)
Definition world_down : World :=
  {| requests_get := fun _ _ => HttpRaise;
     response_json := fun _ => None;
     read_file := fun _ => Raise FileNotFoundError;
     json_loads := fun _ => None;
     get_palette := fun _ _ => None;
     render_template := fun _ _ => Ok "<svg/>" |}.

(** A world whose registry names a current theme it does not define. *)
Definition registry_stale : value :=
  JObj [("templates", JObj [("dark", JStr "dark.html.j2")]);
        ("current-theme", JStr "gone")].

Definition world_stale : World :=
  {| requests_get := fun _ _ => HttpResponse 200 man;
     response_json := fun _ => None;
     read_file := fun _ => Ok "{...}";
     json_loads := fun _ => Some registry_stale;
     get_palette := fun _ _ => Some [(1, 2, 3); (4, 5, 6)];
     render_template := fun _ _ => Ok "<svg/>" |}.

(** A world whose upstream request has the given outcome and body; the
    image requests that follow succeed. *)
Definition world_with (upstream : http_outcome) (parsed : option value)
  : World :=
  {| requests_get := fun n _ => match n with
                                | O => upstream
                                | S _ => HttpResponse 200 man
                                end;
     response_json := fun _ => parsed;
     read_file := fun _ => Ok "{...}";
     json_loads := fun _ => Some registry_a;
     get_palette := fun _ _ => Some [(1, 2, 3); (4, 5, 6)];
     render_template := fun _ _ => Ok "<svg/>" |}.

Example b64encode_Man : Base64.b64encode man = "TWFu".
Proof. reflexivity. Qed.

Example b64encode_Ma : Base64.b64encode [x4d; x61] = "TWE=".
Proof. reflexivity. Qed.

Example b64encode_M : Base64.b64encode [x4d] = "TQ==".
Proof. reflexivity. Qed.

Example str_replace_general : str_replace "ab" "x" "cababab!" = "cxxx!".
Proof. reflexivity. Qed.

Example str_replace_overlap : str_replace "aa" "b" "aaa" = "ba".
Proof. reflexivity. Qed.

Example str_replace_empty_pattern : str_replace "" "-" "abc" = "-a-b-c-".
Proof. reflexivity. Qed.

Example negative_index : item_int (JArr [JInt 1; JInt 2; JInt 3]) (-1) = Ok (JInt 3).
Proof. reflexivity. Qed.

Example end_to_end_playing :
  run (makeSVG_dataDict (world_up payload_a) payload_a "181414" "181414")
  = Ok {| artistName := JStr "Artist A";
          songName := JStr "Song A";
          songURI := JStr "u2";
          artistURI := JStr "u1";
          image := "TWFu";
          status := "playing";
          background_color := "181414";
          border_color := "181414";
          songPalette := [(1, 2, 3); (4, 5, 6)] |}.
Proof. reflexivity. Qed.

Example end_to_end_absent :
  run (makeSVG_dataDict world_down JNull "181414" "181414")
  = Ok {| artistName := JStr "Unknown Artist";
          songName := JStr "Unknown Song";
          songURI := JStr "#";
          artistURI := JStr "#";
          image := "";
          status := "offline";
          background_color := "181414";
          border_color := "181414";
          songPalette := DEFAULT_PALETTE |}.
Proof. reflexivity. Qed.

Example served_playing :
  serve (world_up payload_a) (mkRequest None None (Some "dark"))
  = {| resp_status := 200;
       resp_body := "<svg/>";
       resp_mimetype := "image/svg+xml";
       resp_headers :=
         [("Cache-Control", "s-maxage=1, stale-while-revalidate")] |}.
Proof. reflexivity. Qed.

Example template_requested :
  getTemplate (world_up JNull) (JStr "dark") = JStr "dark.html.j2".
Proof. reflexivity. Qed.

Example template_current :
  getTemplate (world_up JNull) JNull = JStr "light.html.j2".
Proof. reflexivity. Qed.

End Examples.

(** ** Artwork and palette *)

Section Artwork.

Variable w : World.

(** A response that [raise_for_status] rejects. *)
Definition http_failed (o : http_outcome) : bool :=
  match o with
  | HttpRaise => true
  | HttpResponse code _ => (400 <=? code) && (code <? 600)
  end.

(** What [loadImageB64] makes of the outcome of its request. *)
Definition fetched_image (o : http_outcome) : option string :=
  match o with
  | HttpRaise => None
  | HttpResponse code content =>
      if (400 <=? code) && (code <? 600) then None
      else Some (Base64.b64encode content)
  end.

(** What [extract_colors] makes of the outcome of its request. *)
Definition fetched_palette (count : Z) (o : http_outcome) : option palette :=
  match o with
  | HttpRaise => None
  | HttpResponse code content =>
      if (400 <=? code) && (code <? 600) then None
      else get_palette w content count
  end.

Definition image_or_empty (i : option string) : string :=
  match i with Some b => b | None => "" end.

Definition palette_or_default (p : option palette) : palette :=
  match p with Some c => c | None => DEFAULT_PALETTE end.

(** The image URL chosen at lines 127-133. *)
Definition chosen_url (item : value) : result value :=
  (cond <- has_artwork item ;;
   if cond : bool then artwork_url item else Ok (JStr PLACEHOLDER_URL))%res.

Lemma loadImageB64_run (url : value) (n : nat) :
  loadImageB64 w url n = (Ok (fetched_image (requests_get w n url)), S n).
Proof.
  unfold loadImageB64, try_except, bind, http_get, fetched_image.
  destruct (requests_get w n url) as [|code content]; [reflexivity|].
  unfold raise_for_status.
  destruct ((400 <=? code) && (code <? 600)); reflexivity.
Qed.

Lemma extract_colors_run (url : value) (count : Z) (n : nat) :
  extract_colors w url count n
  = (Ok (fetched_palette count (requests_get w n url)), S n).
Proof.
  unfold extract_colors, try_except, bind, http_get, fetched_palette.
  destruct (requests_get w n url) as [|code content]; [reflexivity|].
  unfold raise_for_status.
  destruct ((400 <=? code) && (code <? 600)); [reflexivity|].
  destruct (get_palette w content count); reflexivity.
Qed.

Lemma fetch_artwork_run (url : value) (n : nat) :
  fetch_artwork w url n
  = (Ok (fetched_image (requests_get w n url),
         fetched_palette 2 (requests_get w (S n) url)), S (S n)).
Proof.
  unfold fetch_artwork, bind.
  rewrite loadImageB64_run, extract_colors_run. reflexivity.
Qed.

(** Once a URL is chosen, nothing in lines 129-143 can raise: the results
    are determined by the outcomes of the two requests. *)
Lemma resolve_artwork_run (item url : value) (n : nat) :
  chosen_url item = Ok url ->
  resolve_artwork w item n
  = (Ok (image_or_empty (fetched_image (requests_get w n url)),
         palette_or_default (fetched_palette 2 (requests_get w (S n) url))),
     S (S n)).
Proof.
  unfold chosen_url, resolve_artwork, bind, lift, rbind.
  destruct (has_artwork item) as [cond|e]; [|discriminate].
  destruct cond.
  - intros ->. rewrite fetch_artwork_run. reflexivity.
  - intros [= <-]. rewrite fetch_artwork_run. reflexivity.
Qed.

(** When the choice of the URL raises, so does [resolve_artwork], before any
    request is made. *)
Lemma resolve_artwork_raise (item : value) (e : exn) (n : nat) :
  chosen_url item = Raise e ->
  resolve_artwork w item n = (Raise e, n).
Proof.
  unfold chosen_url, resolve_artwork, bind, lift, rbind.
  destruct (has_artwork item) as [cond|e']; [|intros [= ->]; reflexivity].
  destruct cond; [|discriminate].
  intros ->. reflexivity.
Qed.

Lemma chosen_url_absent : chosen_url JNull = Ok (JStr PLACEHOLDER_URL).
Proof. reflexivity. Qed.

End Artwork.



(** ** Status resolution *)

Section Status.

Variable w : World.

Lemma extract_fields_absent :
  extract_fields JNull
  = Ok (JStr "Unknown Artist", JStr "Unknown Song", JStr "#", JStr "#").
Proof. reflexivity. Qed.

(** When resolution yields no item, the rest of [makeSVG] runs on the
    placeholder image and the fallback strings. *)
Lemma makeSVG_dataDict_without_item
    (data : value) (st bg bd : string) (n : nat) :
  resolve_status data = Ok (st, JNull) ->
  makeSVG_dataDict w data bg bd n
  = (Ok {| artistName := JStr "Unknown Artist";
           songName := JStr "Unknown Song";
           songURI := JStr "#";
           artistURI := JStr "#";
           image := image_or_empty
                      (fetched_image (requests_get w n (JStr PLACEHOLDER_URL)));
           status := st;
           background_color := bg;
           border_color := bd;
           songPalette := palette_or_default
                            (fetched_palette w 2
                               (requests_get w (S n) (JStr PLACEHOLDER_URL))) |},
     S (S n)).
Proof.
  intros Hst. unfold makeSVG_dataDict, bind, lift.
  rewrite Hst.
  rewrite (resolve_artwork_run w JNull (JStr PLACEHOLDER_URL) n chosen_url_absent).
  rewrite extract_fields_absent. reflexivity.
Qed.

Lemma truthy_nonempty_dict (kvs : list (string * value)) :
  kvs <> [] -> truthy (JObj kvs) = true.
Proof. destruct kvs; [congruence | reflexivity]. Qed.

Lemma assoc_some_nonempty (k : string) (kvs : list (string * value)) (v : value) :
  assoc k kvs = Some v -> kvs <> [].
Proof. destruct kvs; [discriminate | congruence]. Qed.

(** The item as lines 98 and 110 compute it, for a dictionary payload. *)
Definition payload_item (kvs : list (string * value)) : value :=
  match assoc "item" kvs with
  | Some (JObj o) => JObj o
  | _ => JNull
  end.

Lemma payload_item_run (kvs : list (string * value)) :
  (probe <- Py.get (JObj kvs) "item" ;;
   if is_dict probe then Py.get (JObj kvs) "item" else Ok JNull)%res
  = Ok (payload_item kvs).
Proof.
  unfold payload_item, Py.get, get_default, rbind.
  destruct (assoc "item" kvs) as [[| | | | |o]|]; reflexivity.
Qed.

(** [resolve_status] on a non-empty dictionary, by the truth value of its
    [is_playing] entry. *)
Lemma resolve_status_dict (kvs : list (string * value)) :
  kvs <> [] ->
  resolve_status (JObj kvs)
  = Ok (let flag := match assoc "is_playing" kvs with
                    | Some v => v
                    | None => JBool false
                    end in
        let item := payload_item kvs in
        if truthy flag
        then if truthy item then ("playing", item) else ("offline", JNull)
        else if truthy item then ("recent", item) else ("recent", JNull)).
Proof.
  intros Hne. unfold resolve_status.
  rewrite (truthy_nonempty_dict kvs Hne). cbn [negb].
  unfold get_default at 1. cbn [rbind].
  destruct (truthy match assoc "is_playing" kvs with
                   | Some x => x | None => JBool false end);
    cbn [negb];
    pose proof (payload_item_run kvs) as Hitem;
    unfold rbind in Hitem |- *;
    destruct (Py.get (JObj kvs) "item") as [probe|e]; try discriminate;
    rewrite Hitem; destruct (truthy (payload_item kvs)); reflexivity.
Qed.

Lemma payload_item_unusable (kvs : list (string * value)) :
  (forall o, assoc "item" kvs = Some (JObj o) -> o = []) ->
  truthy (payload_item kvs) = false.
Proof.
  unfold payload_item. intros H.
  destruct (assoc "item" kvs) as [[| | | | |o]|]; try reflexivity.
  rewrite (H o eq_refl). reflexivity.
Qed.

End Status.

(** The display fields all hold their fallback values. *)
Definition fallback_fields (d : DataDict) : Prop :=
  artistName d = JStr "Unknown Artist" /\
  songName d = JStr "Unknown Song" /\
  songURI d = JStr "#" /\
  artistURI d = JStr "#".

(** C1. A payload whose [is_playing] entry is true and whose [item] entry is
    missing or is not a dictionary resolves to status [offline] with no
    item, and [makeSVG] builds its dictionary with every display field at
    its fallback value. *)
Theorem playing_without_item_is_offline
    (w : World) (kvs : list (string * value)) (flag : value)
    (bg bd : string) (n : nat) :
  assoc "is_playing" kvs = Some flag ->
  truthy flag = true ->
  (forall o, assoc "item" kvs <> Some (JObj o)) ->
  resolve_status (JObj kvs) = Ok ("offline", JNull) /\
  exists d : DataDict,
    fst (makeSVG_dataDict w (JObj kvs) bg bd n) = Ok d /\
    status d = "offline" /\
    fallback_fields d.
Proof.
  intros Hflag Htrue Hitem.
  assert (Hst : resolve_status (JObj kvs) = Ok ("offline", JNull)).
  { rewrite (resolve_status_dict kvs (assoc_some_nonempty _ _ _ Hflag)).
    rewrite Hflag. cbn zeta. rewrite Htrue.
    rewrite payload_item_unusable; [reflexivity|].
    intros o Ho. destruct (Hitem o Ho). }
  split; [exact Hst|].
  rewrite (makeSVG_dataDict_without_item w _ _ bg bd n Hst).
  eexists. split; [reflexivity|].
  repeat split.
Qed.

Lemma playing_without_item_is_offline_witness :
  resolve_status (JObj [("is_playing", JBool true); ("item", JStr "gone")])
  = Ok ("offline", JNull).
Proof.
  refine (proj1 (playing_without_item_is_offline Examples.world_down
                   [("is_playing", JBool true); ("item", JStr "gone")]
                   (JBool true) "181414" "181414" 0%nat eq_refl eq_refl _)).
  intros o H. discriminate H.
Defined.

(** C4. When the upstream payload is absent ([None]), [makeSVG] builds its
    dictionary with status [offline], artist "Unknown Artist", song
    "Unknown Song" and both links "#". *)
Theorem absent_payload_is_offline (w : World) (bg bd : string) (n : nat) :
  exists d : DataDict,
    fst (makeSVG_dataDict w JNull bg bd n) = Ok d /\
    status d = "offline" /\
    artistName d = JStr "Unknown Artist" /\
    songName d = JStr "Unknown Song" /\
    songURI d = JStr "#" /\
    artistURI d = JStr "#".
Proof.
  rewrite (makeSVG_dataDict_without_item w JNull "offline" bg bd n eq_refl).
  eexists. split; [reflexivity|].
  repeat split.
Qed.

(** C5, as the claim has it: every payload that is present and whose
    [is_playing] entry is false or missing resolves to status [recent]. *)
Definition recent_for_every_present_payload : Prop :=
  forall kvs : list (string * value),
    (forall flag, assoc "is_playing" kvs = Some flag -> truthy flag = false) ->
    exists item, resolve_status (JObj kvs) = Ok ("recent", item).

(** The empty object is a present payload without [is_playing], yet line 86
    ([if not data]) sends it down the branch of the absent payload. *)
Lemma empty_payload_is_not_recent : ~ recent_for_every_present_payload.
Proof.
  intros H.
  destruct (H []) as [item Hitem].
  - intros flag Hflag. discriminate Hflag.
  - discriminate Hitem.
Qed.

(** C5, amended. Every non-empty payload dictionary whose [is_playing] entry
    is falsy or missing resolves to status [recent], whatever its [item]
    entry holds; when that entry is missing, not a dictionary or an empty
    dictionary, the item is dropped and [makeSVG] builds its dictionary with
    status [recent] and every display field at its fallback value. *)
Theorem idle_payload_is_recent
    (w : World) (kvs : list (string * value)) (bg bd : string) (n : nat) :
  kvs <> [] ->
  (forall flag, assoc "is_playing" kvs = Some flag -> truthy flag = false) ->
  (exists item, resolve_status (JObj kvs) = Ok ("recent", item)) /\
  ((forall o, assoc "item" kvs = Some (JObj o) -> o = []) ->
   resolve_status (JObj kvs) = Ok ("recent", JNull) /\
   exists d : DataDict,
     fst (makeSVG_dataDict w (JObj kvs) bg bd n) = Ok d /\
     status d = "recent" /\
     fallback_fields d).
Proof.
  intros Hne Hflag.
  assert (Hst : resolve_status (JObj kvs)
                = Ok (if truthy (payload_item kvs)
                      then ("recent", payload_item kvs)
                      else ("recent", JNull))).
  { rewrite (resolve_status_dict kvs Hne). cbn zeta.
    destruct (assoc "is_playing" kvs) as [flag|].
    - rewrite (Hflag flag eq_refl). reflexivity.
    - reflexivity. }
  split.
  - rewrite Hst. destruct (truthy (payload_item kvs)); eexists; reflexivity.
  - intros Hitem.
    rewrite (payload_item_unusable kvs Hitem) in Hst.
    split; [exact Hst|].
    rewrite (makeSVG_dataDict_without_item w _ _ bg bd n Hst).
    eexists. split; [reflexivity|].
    repeat split.
Qed.

Lemma idle_payload_is_recent_witness :
  resolve_status (JObj [("is_playing", JBool false); ("item", JInt 7)])
  = Ok ("recent", JNull).
Proof.
  refine (proj1 (proj2 (idle_payload_is_recent Examples.world_down
                          [("is_playing", JBool false); ("item", JInt 7)]
                          "181414" "181414" 0%nat _ _) _)).
  - discriminate.
  - intros flag H. injection H as <-. reflexivity.
  - intros o H. discriminate H.
Defined.

Example empty_payload_dataDict_status :
  match run (makeSVG_dataDict Examples.world_down (JObj []) "181414" "181414") with
  | Ok d => status d
  | Raise _ => "raised"
  end = "offline".
Proof. reflexivity. Qed.

(** ** Field extraction *)

Section Fields.

(** [item.get(key)] on a dictionary. *)
Definition entry (key : string) (kvs : list (string * value)) : value :=
  match assoc key kvs with Some v => v | None => JNull end.

Lemma get_entry (key : string) (kvs : list (string * value)) :
  Py.get (JObj kvs) key = Ok (entry key kvs).
Proof. reflexivity. Qed.

(** The guard [item and item.get(key)] of lines 148-150 is false as soon as
    the entry is falsy, whether or not the key is there. *)
Lemma guard_falsy (key : string) (kvs : list (string * value)) :
  truthy (entry key kvs) = false ->
  (if truthy (JObj kvs)
   then x <- Py.get (JObj kvs) key ;; Ok (truthy x)
   else Ok false)%res = Ok false.
Proof.
  intros H. rewrite get_entry. cbn [rbind]. rewrite H.
  destruct (truthy (JObj kvs)); reflexivity.
Qed.

Lemma extract_songName_falsy (kvs : list (string * value)) :
  truthy (entry "name" kvs) = false ->
  extract_songName (JObj kvs) = Ok (JStr "Unknown Song").
Proof.
  intros H. unfold extract_songName.
  rewrite (guard_falsy "name" kvs H). reflexivity.
Qed.

Lemma extract_artistName_falsy (kvs : list (string * value)) :
  truthy (entry "artists" kvs) = false ->
  extract_artistName (JObj kvs) = Ok (JStr "Unknown Artist").
Proof.
  intros H. unfold extract_artistName.
  rewrite (guard_falsy "artists" kvs H). reflexivity.
Qed.

Lemma extract_songURI_falsy (kvs : list (string * value)) :
  truthy (entry "external_urls" kvs) = false ->
  extract_songURI (JObj kvs) = Ok (JStr "#").
Proof.
  intros H. unfold extract_songURI.
  rewrite (guard_falsy "external_urls" kvs H). reflexivity.
Qed.

Lemma extract_artistURI_falsy (kvs : list (string * value)) :
  truthy (entry "artists" kvs) = false ->
  extract_artistURI (JObj kvs) = Ok (JStr "#").
Proof.
  intros H. unfold extract_artistURI.
  rewrite get_entry. cbn [rbind]. rewrite H.
  destruct (truthy (JObj kvs)); reflexivity.
Qed.

Lemma entry_of_assoc (key : string) (kvs : list (string * value)) (v : value) :
  assoc key kvs = Some v -> entry key kvs = v.
Proof. unfold entry. intros ->. reflexivity. Qed.

(** [replace("&", "&")] rewrites every ampersand to itself. *)
Lemma replace_from_ampersand (s : string) : replace_from "&" "&" s 0 = s.
Proof.
  induction s as [|c s IH]; [reflexivity|].
  cbn [replace_from String.prefix String.length Nat.sub].
  destruct (ascii_dec "&" c) as [<-|_].
  - destruct s; cbn [append]; rewrite IH; reflexivity.
  - rewrite IH. reflexivity.
Qed.

Lemma str_replace_ampersand (s : string) : str_replace "&" "&" s = s.
Proof. exact (replace_from_ampersand s). Qed.

End Fields.

(** How an exception of the artwork choice or of the field extraction
    leaves [makeSVG]. *)
Lemma makeSVG_dataDict_artwork_raises
    (w : World) (data item : value) (st bg bd : string) (e : exn) (n : nat) :
  resolve_status data = Ok (st, item) ->
  chosen_url item = Raise e ->
  makeSVG_dataDict w data bg bd n = (Raise e, n).
Proof.
  intros Hst Hurl. unfold makeSVG_dataDict, bind, lift.
  rewrite Hst, (resolve_artwork_raise w item e n Hurl). reflexivity.
Qed.

Lemma makeSVG_dataDict_fields_raise
    (w : World) (data item url : value) (st bg bd : string) (e : exn)
    (n : nat) :
  resolve_status data = Ok (st, item) ->
  chosen_url item = Ok url ->
  extract_fields item = Raise e ->
  makeSVG_dataDict w data bg bd n = (Raise e, S (S n)).
Proof.
  intros Hst Hurl Hfields. unfold makeSVG_dataDict, bind, lift.
  rewrite Hst, (resolve_artwork_run w item url n Hurl), Hfields. reflexivity.
Qed.

(** C10. The fallbacks are chosen by truth value, not by key presence: a
    track whose [name] is the empty string gets the song name
    "Unknown Song"; a track whose [artists] is the empty list gets the
    artist name "Unknown Artist" and the artist link "#"; a track whose
    [external_urls] is the empty dictionary gets the song link "#". *)
Theorem fallback_by_truthiness (kvs : list (string * value)) :
  (assoc "name" kvs = Some (JStr "") ->
   extract_songName (JObj kvs) = Ok (JStr "Unknown Song")) /\
  (assoc "artists" kvs = Some (JArr []) ->
   extract_artistName (JObj kvs) = Ok (JStr "Unknown Artist") /\
   extract_artistURI (JObj kvs) = Ok (JStr "#")) /\
  (assoc "external_urls" kvs = Some (JObj []) ->
   extract_songURI (JObj kvs) = Ok (JStr "#")).
Proof.
  split; [|split].
  - intros H. apply extract_songName_falsy.
    rewrite (entry_of_assoc _ _ _ H). reflexivity.
  - intros H. split.
    + apply extract_artistName_falsy.
      rewrite (entry_of_assoc _ _ _ H). reflexivity.
    + apply extract_artistURI_falsy.
      rewrite (entry_of_assoc _ _ _ H). reflexivity.
  - intros H. apply extract_songURI_falsy.
    rewrite (entry_of_assoc _ _ _ H). reflexivity.
Qed.

Lemma fallback_by_truthiness_witness :
  let track := [("name", JStr ""); ("artists", JArr []);
                ("external_urls", JObj [])] in
  extract_songName (JObj track) = Ok (JStr "Unknown Song") /\
  extract_artistName (JObj track) = Ok (JStr "Unknown Artist") /\
  extract_artistURI (JObj track) = Ok (JStr "#") /\
  extract_songURI (JObj track) = Ok (JStr "#").
Proof.
  intros track.
  destruct (fallback_by_truthiness track) as (Hname & Hartists & Hurls).
  split; [exact (Hname eq_refl)|].
  split; [exact (proj1 (Hartists eq_refl))|].
  split; [exact (proj2 (Hartists eq_refl)) | exact (Hurls eq_refl)].
Defined.

(** C2. Extraction is not total: a track whose [external_urls] is a
    non-empty dictionary without the key "spotify" passes the guard of line
    150 and the subscript raises [KeyError], which escapes [makeSVG]; so
    does a first artist without a [name]. *)
Theorem extraction_raises_on_missing_key (w : World) (bg bd : string) :
  let track := JObj [("name", JStr "Song A");
                     ("external_urls", JObj [("href", JStr "u2")])] in
  extract_songURI track = Raise KeyError /\
  extract_fields track = Raise KeyError /\
  run (makeSVG_dataDict w (JObj [("is_playing", JBool true); ("item", track)])
         bg bd) = Raise KeyError /\
  extract_artistName (JObj [("artists", JArr [JObj [("id", JStr "a1")]])])
  = Raise KeyError.
Proof.
  intros track.
  split; [reflexivity|].
  split; [reflexivity|].
  split; [|reflexivity].
  unfold run.
  rewrite (makeSVG_dataDict_fields_raise w
             (JObj [("is_playing", JBool true); ("item", track)])
             track (JStr PLACEHOLDER_URL) "playing" bg bd KeyError 0
             eq_refl eq_refl eq_refl).
  reflexivity.
Qed.

(** C3. No ampersand is escaped: [replace("&", "&")] returns its string
    unchanged, so a name with an ampersand reaches the template with the
    raw character. *)
Theorem ampersand_is_not_escaped :
  (forall s, Py.replace (JStr s) "&" "&" = Ok (JStr s)) /\
  extract_songName (JObj [("name", JStr "Tom & Jerry")])
  = Ok (JStr "Tom & Jerry") /\
  extract_artistName
    (JObj [("artists", JArr [JObj [("name", JStr "Simon & Garfunkel")]])])
  = Ok (JStr "Simon & Garfunkel").
Proof.
  split; [|split; reflexivity].
  intros s. unfold Py.replace. rewrite str_replace_ampersand. reflexivity.
Qed.

(** C6. A track whose [album.images] holds a single image passes the guard
    of line 127 and the subscript [[1]] of line 128 raises [IndexError]: no
    request is made, the placeholder is not used, and the exception escapes
    [makeSVG]. *)
Theorem single_image_raises (w : World) (bg bd : string) (n : nat) :
  let track := JObj [("name", JStr "Song A");
                     ("album",
                      JObj [("images", JArr [JObj [("url", JStr "img")]])])] in
  has_artwork track = Ok true /\
  chosen_url track = Raise IndexError /\
  resolve_artwork w track n = (Raise IndexError, n) /\
  run (makeSVG_dataDict w (JObj [("is_playing", JBool true); ("item", track)])
         bg bd) = Raise IndexError.
Proof.
  intros track.
  split; [reflexivity|].
  split; [reflexivity|].
  split; [exact (resolve_artwork_raise w track IndexError n eq_refl)|].
  unfold run.
  rewrite (makeSVG_dataDict_artwork_raises w
             (JObj [("is_playing", JBool true); ("item", track)])
             track "playing" bg bd IndexError 0 eq_refl eq_refl).
  reflexivity.
Qed.

(** The artwork choice where it does work: the URL of the second image when
    there is one, the placeholder when the album or its images are missing
    or empty. *)
Lemma chosen_url_second_image
    (kvs album : list (string * value)) (first : value)
    (second : list (string * value)) (rest : list value) (url : value) :
  assoc "album" kvs = Some (JObj album) ->
  assoc "images" album = Some (JArr (first :: JObj second :: rest)) ->
  assoc "url" second = Some url ->
  chosen_url (JObj kvs) = Ok url.
Proof.
  intros Halbum Himages Hurl.
  unfold chosen_url, has_artwork, artwork_url, item_str, item_int, subscript,
    Py.get, get_default.
  rewrite (truthy_nonempty_dict kvs (assoc_some_nonempty _ _ _ Halbum)).
  rewrite Halbum. cbn [rbind].
  rewrite (truthy_nonempty_dict album (assoc_some_nonempty _ _ _ Himages)).
  rewrite Himages. cbn [rbind truthy].
  unfold index_seq, norm_index.
  cbn [List.length].
  replace ((0 <=? 1) && (1 <? Z.of_nat (S (S (List.length rest))))) with true
    by (symmetry; apply andb_true_iff; split;
        [reflexivity | apply Z.ltb_lt; lia]).
  change (Z.to_nat 1) with 1%nat.
  cbn [nth_error rbind].
  rewrite Hurl. reflexivity.
Qed.

Lemma chosen_url_placeholder (kvs : list (string * value)) :
  truthy (entry "album" kvs) = false \/
  (exists album, assoc "album" kvs = Some (JObj album) /\
                 truthy (entry "images" album) = false) ->
  chosen_url (JObj kvs) = Ok (JStr PLACEHOLDER_URL).
Proof.
  unfold chosen_url, has_artwork.
  intros [H | (album & Halbum & Himages)].
  - rewrite get_entry. cbn [rbind]. rewrite H.
    destruct (truthy (JObj kvs)); reflexivity.
  - rewrite (truthy_nonempty_dict kvs (assoc_some_nonempty _ _ _ Halbum)).
    rewrite get_entry. cbn [rbind].
    rewrite (entry_of_assoc _ _ _ Halbum).
    unfold item_str, subscript. rewrite Halbum. cbn [rbind].
    rewrite get_entry. cbn [rbind]. rewrite Himages.
    destruct (truthy (JObj album)); reflexivity.
Qed.

(** ** Template registry *)

Section Templates.

Variable w : World.

(** The registry as lines 47-48 read and parse it. *)
Definition registry : result value :=
  (content <- read_file w "api/templates.json" ;;
   match json_loads w content with
   | Some v => Ok v
   | None => Raise JSONDecodeError
   end)%res.

(** Lines 50-62, once the registry is parsed. *)
Definition select_template (templates_config theme_name : value)
  : result value :=
  (available_templates <- Py.get_default templates_config "templates" (JObj []) ;;
   requested <- (if truthy theme_name
                 then contains theme_name available_templates
                 else Ok false) ;;
   if requested : bool then subscript available_templates theme_name
   else
     current_theme_name <- Py.get templates_config "current-theme" ;;
     current <- (if truthy current_theme_name
                 then contains current_theme_name available_templates
                 else Ok false) ;;
     if current : bool then subscript available_templates current_theme_name
     else Ok (JStr FALLBACK_THEME))%res.

Lemma getTemplate_try_registry (theme_name : value) :
  getTemplate_try w theme_name
  = (cfg <- registry ;; select_template cfg theme_name)%res.
Proof.
  unfold getTemplate_try, registry, select_template, rbind.
  destruct (read_file w "api/templates.json") as [content|e]; [|reflexivity].
  destruct (json_loads w content); reflexivity.
Qed.

(** Every exception of the body ends in the fallback. *)
Lemma getTemplate_of_try (theme_name : value) :
  getTemplate w theme_name
  = match getTemplate_try w theme_name with
    | Ok template => template
    | Raise _ => JStr FALLBACK_THEME
    end.
Proof.
  unfold getTemplate.
  destruct (getTemplate_try w theme_name) as [v|[]]; reflexivity.
Qed.

Lemma getTemplate_unreadable (theme_name : value) :
  is_ok registry = false ->
  getTemplate w theme_name = JStr FALLBACK_THEME.
Proof.
  intros H. rewrite getTemplate_of_try, getTemplate_try_registry.
  destruct registry; [discriminate H | reflexivity].
Qed.

(** The value of [templates_config.get("templates", {})]. *)
Definition templates_of (cfg : list (string * value)) : value :=
  match assoc "templates" cfg with Some v => v | None => JObj [] end.

(** The fall-through of lines 56-62: the configured current theme. *)
Definition current_template (cfg : list (string * value)) (t : value)
  : result value :=
  (current_theme_name <- Py.get (JObj cfg) "current-theme" ;;
   current <- (if truthy current_theme_name
               then contains current_theme_name t
               else Ok false) ;;
   if current : bool then subscript t current_theme_name
   else Ok (JStr FALLBACK_THEME))%res.

Lemma select_template_unknown
    (cfg t : list (string * value)) (theme : string) :
  templates_of cfg = JObj t ->
  assoc theme t = None ->
  select_template (JObj cfg) (JStr theme) = current_template cfg (JObj t).
Proof.
  intros Ht Hmiss. unfold select_template, current_template.
  unfold get_default at 1. fold (templates_of cfg). rewrite Ht.
  cbn [rbind]. unfold contains at 1. rewrite Hmiss.
  destruct (truthy (JStr theme)); reflexivity.
Qed.

Lemma select_template_none (cfg : list (string * value)) :
  select_template (JObj cfg) JNull = current_template cfg (templates_of cfg).
Proof. reflexivity. Qed.

Lemma current_template_unknown (cfg t : list (string * value)) :
  (forall s, assoc "current-theme" cfg = Some (JStr s) -> assoc s t = None) ->
  match current_template cfg (JObj t) with
  | Ok template => template
  | Raise _ => JStr FALLBACK_THEME
  end = JStr FALLBACK_THEME.
Proof.
  intros Hcur. unfold current_template, Py.get, get_default. cbn [rbind].
  destruct (assoc "current-theme" cfg) as [[|b|z|s|xs|kvs]|];
    try reflexivity.
  - destruct b; reflexivity.
  - cbn [truthy]. destruct (negb (z =? 0)); reflexivity.
  - cbn [truthy contains]. rewrite (Hcur s eq_refl).
    destruct (negb (s =? ""))%string; reflexivity.
  - destruct xs; reflexivity.
  - destruct kvs; reflexivity.
Qed.

(** A registry that parses to something other than an object has no
    [.get]: the [AttributeError] is caught by the last handler. *)
Lemma getTemplate_not_object (v theme_name : value) :
  registry = Ok v ->
  is_dict v = false ->
  getTemplate w theme_name = JStr FALLBACK_THEME.
Proof.
  intros Hreg Hv. rewrite getTemplate_of_try, getTemplate_try_registry, Hreg.
  destruct v; try reflexivity. discriminate Hv.
Qed.

End Templates.

(** The mapping matters: were [templates] a list, a theme found in it would
    raise at the subscript and fall back, while no theme at all could still
    reach the current theme. *)
Example templates_list_differs :
  let w := {| requests_get := fun _ _ => HttpRaise;
              response_json := fun _ => None;
              read_file := fun _ => Ok "{...}";
              json_loads := fun _ =>
                Some (JObj [("templates", JArr [JStr "neon"; JStr "b.j2"; JBool true]);
                            ("current-theme", JBool true)]);
              get_palette := fun _ _ => None;
              render_template := fun _ _ => Ok "<svg/>" |} in
  getTemplate w (JStr "neon") = JStr FALLBACK_THEME /\
  getTemplate w JNull = JStr "b.j2".
Proof. split; reflexivity. Qed.

Example stale_current_theme_falls_back :
  getTemplate Examples.world_stale (JStr "neon") = JStr FALLBACK_THEME /\
  getTemplate Examples.world_stale JNull = JStr FALLBACK_THEME.
Proof. split; reflexivity. Qed.

(** ** The request handler *)

Section Handler.

Variable w : World.

(** The payload [get] returns, or the exception it lets through. *)
Definition upstream_payload (o : http_outcome) : result value :=
  match o with
  | HttpRaise => Raise RequestException
  | HttpResponse code content =>
      if code =? 200 then
        match response_json w content with
        | Some v => Ok v
        | None => Raise JSONDecodeError
        end
      else Ok JNull
  end.

Lemma get_run (url : value) (n : nat) :
  get w url n = (upstream_payload (requests_get w n url), S n).
Proof.
  unfold get, bind, http_get, upstream_payload.
  destruct (requests_get w n url) as [|code content]; [reflexivity|].
  destruct (code =? 200); [|reflexivity].
  destruct (response_json w content); reflexivity.
Qed.

Lemma catch_all_get_raises (req : Request) (e : exn) :
  upstream_payload (requests_get w 0 (JStr NOW_PLAYING_URL)) = Raise e ->
  run (catch_all w req) = Raise e.
Proof.
  intros H. unfold run, catch_all. unfold bind at 1.
  rewrite get_run, H. reflexivity.
Qed.

(** [get] has no handler around [requests.get]: a network error or a
    timeout leaves [catch_all] as an exception. *)
Lemma catch_all_network_error (req : Request) :
  requests_get w 0 (JStr NOW_PLAYING_URL) = HttpRaise ->
  run (catch_all w req) = Raise RequestException.
Proof.
  intros H. apply catch_all_get_raises. rewrite H. reflexivity.
Qed.

(** Nor around [response.json()]. *)
Lemma catch_all_invalid_json (req : Request) (content : list byte) :
  requests_get w 0 (JStr NOW_PLAYING_URL) = HttpResponse 200 content ->
  response_json w content = None ->
  run (catch_all w req) = Raise JSONDecodeError.
Proof.
  intros H Hjson. apply catch_all_get_raises. rewrite H.
  unfold upstream_payload. rewrite Hjson. reflexivity.
Qed.

(** A status other than 200 is the absent payload: the card is rendered
    offline and served with status 200, if the template renders. *)
Lemma catch_all_bad_status
    (req : Request) (code : Z) (content : list byte) :
  requests_get w 0 (JStr NOW_PLAYING_URL) = HttpResponse code content ->
  code <> 200 ->
  (forall template d, is_ok (render_template w template d) = true) ->
  exists svg,
    run (catch_all w req)
    = Ok {| resp_status := 200;
            resp_body := svg;
            resp_mimetype := "image/svg+xml";
            resp_headers :=
              [("Cache-Control", "s-maxage=1, stale-while-revalidate")] |}.
Proof.
  intros H Hcode Hrender.
  unfold run, catch_all. unfold bind at 1. rewrite get_run, H.
  unfold upstream_payload.
  destruct (Z.eqb_spec code 200) as [->|_]; [congruence|].
  unfold makeSVG, bind.
  rewrite (makeSVG_dataDict_without_item w JNull "offline" _ _ 1 eq_refl).
  unfold lift.
  match goal with
  | |- context [render_template w ?t ?d] =>
      specialize (Hrender t d); destruct (render_template w t d) as [svg|e]
  end; [|discriminate Hrender].
  exists svg. reflexivity.
Qed.

End Handler.

(** C9. Upstream failures do reach the HTTP caller.  A network error of the
    upstream request, a 200 response whose body is not JSON and a payload
    that is a list each leave [catch_all] as an exception
    ([RequestException], [JSONDecodeError], [AttributeError]), which Flask
    answers with status 500.  Only a status other than 200 is absorbed. *)
Theorem upstream_failure_escapes_handler (req : Request) :
  run (catch_all (Examples.world_with HttpRaise None) req)
  = Raise RequestException /\
  run (catch_all (Examples.world_with (HttpResponse 200 Examples.man) None) req)
  = Raise JSONDecodeError /\
  run (catch_all (Examples.world_with (HttpResponse 200 Examples.man)
                    (Some (JArr [JInt 1]))) req)
  = Raise AttributeError /\
  resp_status (serve (Examples.world_with HttpRaise None) req) = 500 /\
  resp_status (serve (Examples.world_with (HttpResponse 503 []) None) req) = 200.
Proof.
  split; [apply catch_all_network_error; reflexivity|].
  split; [apply (catch_all_invalid_json _ req Examples.man); reflexivity|].
  split; [reflexivity|].
  split.
  - unfold serve. rewrite catch_all_network_error; reflexivity.
  - reflexivity.
Qed.


(** * Further properties of the script *)

(** ** Status resolution, on every payload *)

Section StatusCases.

(** Lines 86-123 on an arbitrary value: a falsy payload is offline, a
    truthy payload that is not a dictionary has no [.get]. *)
Lemma resolve_status_cases (data : value) :
  resolve_status data
  = if negb (truthy data) then Ok ("offline", JNull)
    else match data with
         | JObj kvs =>
             Ok (let flag := match assoc "is_playing" kvs with
                             | Some v => v
                             | None => JBool false
                             end in
                 let item := payload_item kvs in
                 if truthy flag
                 then if truthy item then ("playing", item)
                      else ("offline", JNull)
                 else if truthy item then ("recent", item)
                      else ("recent", JNull))
         | _ => Raise AttributeError
         end.
Proof.
  destruct data as [|b|z|s|xs|kvs].
  - reflexivity.
  - destruct b; reflexivity.
  - unfold resolve_status. cbn [truthy].
    destruct (negb (z =? 0)); reflexivity.
  - unfold resolve_status. cbn [truthy].
    destruct (negb (s =? ""))%string; reflexivity.
  - destruct xs; reflexivity.
  - destruct kvs as [|kv kvs]; [reflexivity|].
    rewrite resolve_status_dict by discriminate. reflexivity.
Qed.

(** The item of a dictionary payload is [None] or a non-empty dictionary
    stored under "item". *)
Lemma payload_item_cases (kvs : list (string * value)) :
  (payload_item kvs = JNull /\ truthy (payload_item kvs) = false) \/
  (exists o, assoc "item" kvs = Some (JObj o) /\ payload_item kvs = JObj o).
Proof.
  unfold payload_item.
  destruct (assoc "item" kvs) as [[| | | | |o]|]; try (left; split; reflexivity).
  right. exists o. split; reflexivity.
Qed.

Lemma truthy_dict_nonempty (o : list (string * value)) :
  truthy (JObj o) = true -> o <> [].
Proof. destruct o; [discriminate | discriminate]. Qed.

End StatusCases.

(** Case analysis on the truth value of the [is_playing] entry. *)
Ltac case_flag :=
  match goal with
  | |- context [if truthy ?flag then _ else _] =>
      destruct (truthy flag); cbv iota
  end.

(** X1. Status resolution yields [playing] exactly for a dictionary payload
    whose [is_playing] entry is truthy and whose [item] entry is a non-empty
    dictionary, and the item it yields is that dictionary. *)
Theorem playing_iff (data item : value) :
  resolve_status data = Ok ("playing", item) <->
  exists kvs flag o,
    data = JObj kvs /\
    assoc "is_playing" kvs = Some flag /\ truthy flag = true /\
    assoc "item" kvs = Some (JObj o) /\ o <> [] /\
    item = JObj o.
Proof.
  rewrite resolve_status_cases. split.
  - destruct (truthy data); cbn [negb]; [|discriminate].
    destruct data as [| | | | |kvs]; try discriminate.
    cbn zeta.
    destruct (assoc "is_playing" kvs) as [flag|] eqn:Hflag;
      [|cbn [truthy]; destruct (truthy (payload_item kvs)); discriminate].
    destruct (truthy flag) eqn:Htrue;
      [|destruct (truthy (payload_item kvs)); discriminate].
    destruct (payload_item_cases kvs) as [[_ Hfalsy] | (o & Hitem & Ho)].
    + rewrite Hfalsy. discriminate.
    + rewrite Ho. destruct (truthy (JObj o)) eqn:Hne; [|discriminate].
      intros [= <-].
      exists kvs, flag, o.
      repeat split; try assumption.
      exact (truthy_dict_nonempty o Hne).
  - intros (kvs & flag & o & -> & Hflag & Htrue & Hitem & Hne & ->).
    rewrite (truthy_nonempty_dict kvs (assoc_some_nonempty _ _ _ Hflag)).
    cbn [negb]. cbn zeta. rewrite Hflag, Htrue.
    unfold payload_item. rewrite Hitem.
    rewrite (truthy_nonempty_dict o Hne). reflexivity.
Qed.

(** What a returned status and item look like. *)
Lemma resolve_status_shape (data item : value) (st : string) :
  resolve_status data = Ok (st, item) ->
  (st = "offline" \/ st = "recent" \/ st = "playing") /\
  (item = JNull \/
   exists kvs o, data = JObj kvs /\ assoc "item" kvs = Some (JObj o) /\
                 o <> [] /\ item = JObj o) /\
  (st = "offline" -> item = JNull) /\
  (st = "playing" -> item <> JNull).
Proof.
  rewrite resolve_status_cases.
  destruct (truthy data); cbn [negb].
  2:{ intros [= <- <-]. repeat split; auto. discriminate. }
  destruct data as [| | | | |kvs]; try discriminate.
  cbn zeta.
  destruct (payload_item_cases kvs) as [[Hnull Hfalsy] | (o & Hitem & Ho)].
  - rewrite Hfalsy.
    case_flag; intros [= <- <-]; repeat split; auto; discriminate.
  - rewrite Ho.
    destruct (truthy (JObj o)) eqn:Hne.
    + pose proof (truthy_dict_nonempty o Hne) as Hne'.
      case_flag; intros [= <- <-];
        (split; [auto|]);
        (split; [right; exists kvs, o; auto|]);
        split; discriminate.
    + case_flag; intros [= <- <-]; repeat split; auto; discriminate.
Qed.

(** X2. Whenever status resolution returns, the keyword is one of
    [offline], [recent] and [playing]; the item is [None] or a non-empty
    dictionary taken from the payload's "item" entry; [offline] comes with no
    item and [playing] with one. *)
Theorem resolve_status_invariant (data item : value) (st : string) :
  resolve_status data = Ok (st, item) ->
  (st = "offline" \/ st = "recent" \/ st = "playing") /\
  (item = JNull \/
   exists kvs o, data = JObj kvs /\ assoc "item" kvs = Some (JObj o) /\
                 o <> [] /\ item = JObj o) /\
  (st = "offline" -> item = JNull) /\
  (st = "playing" -> item <> JNull).
Proof. exact (resolve_status_shape data item st). Qed.

Lemma resolve_status_invariant_witness :
  JObj [("id", JStr "t1")] <> JNull.
Proof.
  exact (proj2 (proj2 (proj2
    (resolve_status_invariant
       (JObj [("is_playing", JBool true); ("item", JObj [("id", JStr "t1")])])
       (JObj [("id", JStr "t1")]) "playing" eq_refl))) eq_refl).
Defined.

(** X3. Status resolution raises exactly on a truthy payload that is not a
    dictionary (a non-empty list or string, a non-zero number, [true]), and
    the exception is [AttributeError]. *)
Theorem resolve_status_raises_iff (data : value) (e : exn) :
  resolve_status data = Raise e <->
  truthy data = true /\ is_dict data = false /\ e = AttributeError.
Proof.
  rewrite resolve_status_cases. split.
  - destruct (truthy data); cbn [negb]; [|discriminate].
    destruct data; try discriminate; intros [= <-]; repeat split.
  - intros (Htrue & Hdict & ->). rewrite Htrue. cbn [negb].
    destruct data; try reflexivity. discriminate Hdict.
Qed.

(** ** Template selection, when the registry is well formed *)

Section TemplateChoice.

Variable w : World.
Variables cfg t : list (string * value).
Hypothesis registry_ok : registry w = Ok (JObj cfg).
Hypothesis templates_ok : templates_of cfg = JObj t.

Lemma getTemplate_select (theme_name : value) :
  getTemplate w theme_name
  = match select_template (JObj cfg) theme_name with
    | Ok template => template
    | Raise _ => JStr FALLBACK_THEME
    end.
Proof.
  rewrite getTemplate_of_try, getTemplate_try_registry, registry_ok.
  reflexivity.
Qed.

Lemma truthy_str (s : string) : s <> "" -> truthy (JStr s) = true.
Proof.
  intros H. cbn [truthy].
  destruct (String.eqb_spec s ""); [contradiction | reflexivity].
Qed.

(** A requested theme that is a key is selected at line 53. *)
Lemma select_template_requested (theme : string) (v : value) :
  theme <> "" ->
  assoc theme t = Some v ->
  select_template (JObj cfg) (JStr theme) = Ok v.
Proof.
  intros Hne Hkey. unfold select_template.
  unfold get_default at 1. fold (templates_of cfg). rewrite templates_ok.
  cbn [rbind]. rewrite (truthy_str theme Hne).
  unfold contains, subscript. rewrite Hkey. reflexivity.
Qed.

(** A request that names no usable theme falls through to line 56. *)
Lemma select_template_fallthrough (theme : option string) :
  (forall s, theme = Some s -> s = "" \/ assoc s t = None) ->
  select_template (JObj cfg) (arg_value theme)
  = current_template cfg (JObj t).
Proof.
  intros H. destruct theme as [s|]; cbn [arg_value].
  - destruct (H s eq_refl) as [-> | Hmiss].
    + unfold select_template, current_template.
      unfold get_default at 1. fold (templates_of cfg). rewrite templates_ok.
      reflexivity.
    + exact (select_template_unknown cfg t s templates_ok Hmiss).
  - rewrite select_template_none, templates_ok. reflexivity.
Qed.

Lemma current_template_known (c : string) (v : value) :
  assoc "current-theme" cfg = Some (JStr c) ->
  c <> "" ->
  assoc c t = Some v ->
  current_template cfg (JObj t) = Ok v.
Proof.
  intros Hcur Hne Hkey. unfold current_template, Py.get, get_default.
  rewrite Hcur. cbn [rbind]. rewrite (truthy_str c Hne).
  unfold contains, subscript. rewrite Hkey. reflexivity.
Qed.

(** Whatever the current theme holds, lines 56-62 give the fallback or a
    value of the mapping. *)
Lemma current_template_range :
  let chosen := match current_template cfg (JObj t) with
                | Ok template => template
                | Raise _ => JStr FALLBACK_THEME
                end in
  chosen = JStr FALLBACK_THEME \/ exists k, assoc k t = Some chosen.
Proof.
  unfold current_template, Py.get, get_default. cbn [rbind].
  destruct (assoc "current-theme" cfg) as [[|b|z|s|xs|kvs]|];
    try (left; reflexivity).
  - destruct b; left; reflexivity.
  - cbn [truthy]. destruct (negb (z =? 0)); left; reflexivity.
  - cbn [truthy contains subscript].
    destruct (negb (s =? ""))%string; [|left; reflexivity].
    destruct (assoc s t) as [v|] eqn:Hkey; cbn [rbind].
    + right. exists s. exact Hkey.
    + left. reflexivity.
  - destruct xs; left; reflexivity.
  - destruct kvs; left; reflexivity.
Qed.

End TemplateChoice.

(** The result of [getTemplate], for a registry with a templates mapping. *)
Lemma getTemplate_stored_or_fallback
    (w : World) (cfg t : list (string * value)) (theme : option string) :
  registry w = Ok (JObj cfg) ->
  templates_of cfg = JObj t ->
  getTemplate w (arg_value theme) = JStr FALLBACK_THEME \/
  exists k, assoc k t = Some (getTemplate w (arg_value theme)).
Proof.
  intros Hreg Ht.
  rewrite (getTemplate_select w cfg Hreg).
  destruct theme as [s|].
  - destruct (String.eqb_spec s "") as [-> | Hne].
    + rewrite (select_template_fallthrough cfg t Ht (Some ""))
        by (intros s' [= <-]; left; reflexivity).
      exact (current_template_range cfg t).
    + destruct (assoc s t) as [v|] eqn:Hkey.
      * cbn [arg_value].
        rewrite (select_template_requested cfg t Ht s v Hne Hkey).
        right. exists s. exact Hkey.
      * rewrite (select_template_fallthrough cfg t Ht (Some s))
          by (intros s' [= <-]; right; exact Hkey).
        exact (current_template_range cfg t).
  - rewrite (select_template_fallthrough cfg t Ht None) by discriminate.
    exact (current_template_range cfg t).
Qed.


(** A template identifier, as [render_template] takes it: a string. *)
Definition is_identifier (v : value) : bool :=
  match v with JStr _ => true | _ => false end.

(** A world whose registry stores [null] as the template of its current
    theme. *)
Definition registry_null : value :=
  JObj [("templates", JObj [("light", JNull)]);
        ("current-theme", JStr "light")].

Definition world_null : World :=
  {| requests_get := fun _ _ => HttpRaise;
     response_json := fun _ => None;
     read_file := fun _ => Ok "{...}";
     json_loads := fun _ => Some registry_null;
     get_palette := fun _ _ => None;
     render_template := fun _ _ => Ok "<svg/>" |}.

(** C8, where the claim has it that [getTemplate] always returns an
    identifier. *)
Definition getTemplate_always_identifier : Prop :=
  forall (w : World) (theme : option string),
    is_identifier (getTemplate w (arg_value theme)) = true.

(** Lines 53 and 58 return what the registry stores, unvalidated: with
    [null] stored for the current theme, an unknown theme and no theme both
    resolve to [None], which is no identifier. *)
Lemma stored_null_is_returned :
  assoc "neon" [("light", JNull)] = None /\
  getTemplate world_null (JStr "neon") = JNull /\
  getTemplate world_null JNull = JNull /\
  ~ getTemplate_always_identifier.
Proof.
  split; [reflexivity|].
  split; [reflexivity|].
  split; [reflexivity|].
  intros H. specialize (H world_null (Some "neon")). discriminate H.
Qed.

(** C8, amended. A requested theme that is not a key of the registry's
    templates mapping resolves exactly as no theme at all; when the
    configured current theme is not a key either (or is missing), both
    resolve to the fallback "spotify.html.j2"; and when the registry file
    cannot be read or parsed, or does not hold an object, every request
    resolves to the fallback.  [getTemplate] never fails outward: every
    exception of its body is turned into the fallback.  What it returns,
    for any request, is the fallback or a value stored in the templates
    mapping, hence an identifier whenever the mapping stores identifiers. *)
Theorem unknown_theme_resolves_like_none (w : World) (theme : string) :
  (forall cfg t,
     registry w = Ok (JObj cfg) ->
     templates_of cfg = JObj t ->
     assoc theme t = None ->
     getTemplate w (JStr theme) = getTemplate w JNull /\
     ((forall s, assoc "current-theme" cfg = Some (JStr s) ->
                 assoc s t = None) ->
      getTemplate w (JStr theme) = JStr FALLBACK_THEME /\
      getTemplate w JNull = JStr FALLBACK_THEME)) /\
  (is_ok (registry w) = false \/
   (exists v, registry w = Ok v /\ is_dict v = false) ->
   getTemplate w (JStr theme) = JStr FALLBACK_THEME /\
   getTemplate w JNull = JStr FALLBACK_THEME) /\
  (forall (requested : option string) (e : exn),
     getTemplate_try w (arg_value requested) = Raise e ->
     getTemplate w (arg_value requested) = JStr FALLBACK_THEME) /\
  (forall (requested : option string) cfg t,
     registry w = Ok (JObj cfg) ->
     templates_of cfg = JObj t ->
     (getTemplate w (arg_value requested) = JStr FALLBACK_THEME \/
      exists k, assoc k t = Some (getTemplate w (arg_value requested))) /\
     ((forall k v, assoc k t = Some v -> is_identifier v = true) ->
      is_identifier (getTemplate w (arg_value requested)) = true)).
Proof.
  split; [|split; [|split]].
  - intros cfg t Hreg Ht Hmiss.
    assert (Hsome : getTemplate_try w (JStr theme)
                    = current_template cfg (JObj t)).
    { rewrite getTemplate_try_registry, Hreg. cbn [rbind].
      exact (select_template_unknown cfg t theme Ht Hmiss). }
    assert (Hnone : getTemplate_try w JNull = current_template cfg (JObj t)).
    { rewrite getTemplate_try_registry, Hreg. cbn [rbind].
      rewrite select_template_none, Ht. reflexivity. }
    rewrite !getTemplate_of_try, Hsome, Hnone.
    split; [reflexivity|].
    intros Hcur. split; exact (current_template_unknown cfg t Hcur).
  - intros [Hbad | (v & Hreg & Hv)].
    + split; apply getTemplate_unreadable; exact Hbad.
    + split; exact (getTemplate_not_object w v _ Hreg Hv).
  - intros requested e Hraise.
    rewrite getTemplate_of_try, Hraise. reflexivity.
  - intros requested cfg t Hreg Ht.
    pose proof (getTemplate_stored_or_fallback w cfg t requested Hreg Ht)
      as Hrange.
    split; [exact Hrange|].
    intros Hstored.
    destruct Hrange as [-> | (k & Hk)]; [reflexivity|].
    exact (Hstored k _ Hk).
Qed.

Lemma unknown_theme_resolves_like_none_witness :
  getTemplate (Examples.world_up JNull) (JStr "neon")
  = getTemplate (Examples.world_up JNull) JNull /\
  getTemplate Examples.world_stale (JStr "neon") = JStr FALLBACK_THEME /\
  getTemplate Examples.world_down (JStr "neon") = JStr FALLBACK_THEME /\
  getTemplate Examples.world_down (arg_value (Some "neon"))
  = JStr FALLBACK_THEME /\
  is_identifier (getTemplate (Examples.world_up JNull) (arg_value (Some "dark")))
  = true.
Proof.
  split; [|split; [|split; [|split]]].
  - refine (proj1 (proj1 (unknown_theme_resolves_like_none
                            (Examples.world_up JNull) "neon")
                     [("templates", JObj [("dark", JStr "dark.html.j2");
                                          ("light", JStr "light.html.j2")]);
                      ("current-theme", JStr "light")]
                     [("dark", JStr "dark.html.j2");
                      ("light", JStr "light.html.j2")]
                     eq_refl eq_refl eq_refl)).
  - refine (proj1 (proj2 (proj1 (unknown_theme_resolves_like_none
                                   Examples.world_stale "neon")
                            [("templates", JObj [("dark", JStr "dark.html.j2")]);
                             ("current-theme", JStr "gone")]
                            [("dark", JStr "dark.html.j2")]
                            eq_refl eq_refl eq_refl) _)).
    intros s H. injection H as <-. reflexivity.
  - exact (proj1 (proj1 (proj2 (unknown_theme_resolves_like_none
                                  Examples.world_down "neon"))
                    (or_introl eq_refl))).
  - exact (proj1 (proj2 (proj2 (unknown_theme_resolves_like_none
                                  Examples.world_down "neon")))
             (Some "neon") FileNotFoundError eq_refl).
  - refine (proj2 (proj2 (proj2 (proj2 (unknown_theme_resolves_like_none
                                          (Examples.world_up JNull) "neon")))
                            (Some "dark")
                            [("templates", JObj [("dark", JStr "dark.html.j2");
                                                 ("light", JStr "light.html.j2")]);
                             ("current-theme", JStr "light")]
                            [("dark", JStr "dark.html.j2");
                             ("light", JStr "light.html.j2")]
                            eq_refl eq_refl) _).
    intros k v H. cbn [assoc] in H.
    destruct (k =? "dark")%string; [injection H as <-; reflexivity|].
    destruct (k =? "light")%string; [injection H as <-; reflexivity|].
    discriminate H.
Defined.

(** X4. When the registry holds a templates mapping, a requested theme that
    is a non-empty key of it selects its own template, whatever the
    configured current theme is. *)
Theorem requested_theme_wins
    (w : World) (cfg t : list (string * value)) (theme : string) (v : value) :
  registry w = Ok (JObj cfg) ->
  templates_of cfg = JObj t ->
  theme <> "" ->
  assoc theme t = Some v ->
  getTemplate w (JStr theme) = v.
Proof.
  intros Hreg Ht Hne Hkey.
  rewrite (getTemplate_select w cfg Hreg).
  rewrite (select_template_requested cfg t Ht theme v Hne Hkey).
  reflexivity.
Qed.

Lemma requested_theme_wins_witness :
  getTemplate (Examples.world_up JNull) (JStr "dark") = JStr "dark.html.j2".
Proof.
  refine (requested_theme_wins (Examples.world_up JNull)
            [("templates", JObj [("dark", JStr "dark.html.j2");
                                 ("light", JStr "light.html.j2")]);
             ("current-theme", JStr "light")]
            [("dark", JStr "dark.html.j2"); ("light", JStr "light.html.j2")]
            "dark" (JStr "dark.html.j2") eq_refl eq_refl _ eq_refl).
  discriminate.
Defined.

(** X5. When the request names no theme, the empty theme, or a theme that is
    not a key of the templates mapping, and the configured current theme is a
    non-empty key, the template of the current theme is selected. *)
Theorem current_theme_is_default
    (w : World) (cfg t : list (string * value)) (theme : option string)
    (c : string) (v : value) :
  registry w = Ok (JObj cfg) ->
  templates_of cfg = JObj t ->
  (forall s, theme = Some s -> s = "" \/ assoc s t = None) ->
  assoc "current-theme" cfg = Some (JStr c) ->
  c <> "" ->
  assoc c t = Some v ->
  getTemplate w (arg_value theme) = v.
Proof.
  intros Hreg Ht Hreq Hcur Hne Hkey.
  rewrite (getTemplate_select w cfg Hreg).
  rewrite (select_template_fallthrough cfg t Ht theme Hreq).
  rewrite (current_template_known cfg t c v Hcur Hne Hkey).
  reflexivity.
Qed.

Lemma current_theme_is_default_witness :
  getTemplate (Examples.world_up JNull) (arg_value (Some ""))
  = JStr "light.html.j2".
Proof.
  refine (current_theme_is_default (Examples.world_up JNull)
            [("templates", JObj [("dark", JStr "dark.html.j2");
                                 ("light", JStr "light.html.j2")]);
             ("current-theme", JStr "light")]
            [("dark", JStr "dark.html.j2"); ("light", JStr "light.html.j2")]
            (Some "") "light" (JStr "light.html.j2")
            eq_refl eq_refl _ eq_refl _ eq_refl).
  - intros s H. injection H as <-. left. reflexivity.
  - discriminate.
Defined.

(** X6. When the registry holds a templates mapping, the template selected
    for any request is the fallback "spotify.html.j2" or a value stored in
    the mapping: nothing else can be handed to the renderer. *)
Theorem selected_template_in_registry
    (w : World) (cfg t : list (string * value)) (theme : option string) :
  registry w = Ok (JObj cfg) ->
  templates_of cfg = JObj t ->
  getTemplate w (arg_value theme) = JStr FALLBACK_THEME \/
  exists k, assoc k t = Some (getTemplate w (arg_value theme)).
Proof. exact (getTemplate_stored_or_fallback w cfg t theme). Qed.

Lemma selected_template_in_registry_witness :
  getTemplate Examples.world_stale (arg_value (Some "neon"))
  = JStr FALLBACK_THEME \/
  exists k, assoc k [("dark", JStr "dark.html.j2")]
            = Some (getTemplate Examples.world_stale (arg_value (Some "neon"))).
Proof.
  exact (selected_template_in_registry Examples.world_stale
           [("templates", JObj [("dark", JStr "dark.html.j2")]);
            ("current-theme", JStr "gone")]
           [("dark", JStr "dark.html.j2")] (Some "neon") eq_refl eq_refl).
Defined.

(** ** Field extraction, case by case *)

Section FieldCases.

(** A truthy entry is a stored entry: the subscript finds it. *)
Lemma item_str_entry (key : string) (kvs : list (string * value)) :
  truthy (entry key kvs) = true ->
  item_str (JObj kvs) key = Ok (entry key kvs).
Proof.
  unfold item_str, subscript, entry.
  destruct (assoc key kvs); [reflexivity | discriminate].
Qed.

Lemma item_str_assoc (key : string) (kvs : list (string * value)) (v : value) :
  assoc key kvs = Some v -> item_str (JObj kvs) key = Ok v.
Proof. unfold item_str, subscript. intros ->. reflexivity. Qed.

Lemma truthy_entry_dict (key : string) (kvs : list (string * value)) :
  truthy (entry key kvs) = true -> truthy (JObj kvs) = true.
Proof. destruct kvs; [discriminate | reflexivity]. Qed.

Lemma item_int_head (x : value) (xs : list value) :
  item_int (JArr (x :: xs)) 0 = Ok x.
Proof.
  unfold item_int, subscript, index_seq, norm_index. cbn [List.length].
  replace ((0 <=? 0) && (0 <? Z.of_nat (S (List.length xs)))) with true
    by (symmetry; apply andb_true_iff; split;
        [reflexivity | apply Z.ltb_lt; lia]).
  reflexivity.
Qed.

(** Lines 148 and 151 once the guard [item.get("artists")] has seen a
    non-empty list: only its first element is read. *)
Lemma extract_artistName_first
    (kvs : list (string * value)) (first : value) (rest : list value) :
  assoc "artists" kvs = Some (JArr (first :: rest)) ->
  extract_artistName (JObj kvs)
  = (name <- item_str first "name" ;; Py.replace name "&" "&")%res.
Proof.
  intros H. unfold extract_artistName.
  rewrite (truthy_nonempty_dict kvs (assoc_some_nonempty _ _ _ H)).
  rewrite get_entry, (entry_of_assoc _ _ _ H). cbn [rbind truthy].
  rewrite (item_str_assoc _ _ _ H). cbn [rbind].
  rewrite item_int_head. reflexivity.
Qed.

Lemma extract_artistURI_first
    (kvs : list (string * value)) (first : value) (rest : list value) :
  assoc "artists" kvs = Some (JArr (first :: rest)) ->
  extract_artistURI (JObj kvs)
  = (urls <- Py.get first "external_urls" ;;
     if truthy urls
     then urls' <- item_str first "external_urls" ;; item_str urls' "spotify"
     else Ok (JStr "#"))%res.
Proof.
  intros H. unfold extract_artistURI.
  rewrite (truthy_nonempty_dict kvs (assoc_some_nonempty _ _ _ H)).
  rewrite get_entry, (entry_of_assoc _ _ _ H). cbn [rbind truthy].
  rewrite !(item_str_assoc _ _ _ H). cbn [rbind].
  rewrite item_int_head. cbn [rbind].
  destruct (Py.get first "external_urls") as [urls|e]; [|reflexivity].
  cbn [rbind]. destruct (truthy urls); reflexivity.
Qed.

Lemma songName_value (kvs : list (string * value)) (name : string) :
  assoc "name" kvs = Some (JStr name) ->
  name <> "" ->
  extract_songName (JObj kvs) = Ok (JStr name).
Proof.
  intros H Hne.
  assert (Htrue : truthy (entry "name" kvs) = true).
  { rewrite (entry_of_assoc _ _ _ H). exact (truthy_str name Hne). }
  unfold extract_songName.
  rewrite (truthy_entry_dict _ _ Htrue), get_entry. cbn [rbind].
  rewrite Htrue, (item_str_assoc _ _ _ H). cbn [rbind].
  unfold Py.replace. rewrite str_replace_ampersand. reflexivity.
Qed.

Lemma songURI_value
    (kvs urls : list (string * value)) (link : value) :
  assoc "external_urls" kvs = Some (JObj urls) ->
  assoc "spotify" urls = Some link ->
  extract_songURI (JObj kvs) = Ok link.
Proof.
  intros H Hlink.
  assert (Htrue : truthy (entry "external_urls" kvs) = true).
  { rewrite (entry_of_assoc _ _ _ H).
    exact (truthy_nonempty_dict urls (assoc_some_nonempty _ _ _ Hlink)). }
  unfold extract_songURI.
  rewrite (truthy_entry_dict _ _ Htrue), get_entry. cbn [rbind].
  rewrite Htrue, (item_str_assoc _ _ _ H). cbn [rbind].
  exact (item_str_assoc _ _ _ Hlink).
Qed.

End FieldCases.

(** X7. Line 149, in full: the song name is "Unknown Song" when the "name"
    entry is missing or falsy, the entry itself (unchanged) when it is a
    non-empty string, and an [AttributeError] when it is any other truthy
    value, which has no [.replace]. *)
Theorem songName_cases (kvs : list (string * value)) :
  extract_songName (JObj kvs)
  = let name := entry "name" kvs in
    if negb (truthy name) then Ok (JStr "Unknown Song")
    else match name with
         | JStr s => Ok (JStr s)
         | _ => Raise AttributeError
         end.
Proof.
  cbn zeta.
  destruct (truthy (entry "name" kvs)) eqn:Hname; cbn [negb].
  - unfold extract_songName.
    rewrite (truthy_entry_dict _ _ Hname), get_entry. cbn [rbind].
    rewrite Hname, (item_str_entry _ _ Hname). cbn [rbind].
    destruct (entry "name" kvs); try reflexivity.
    unfold Py.replace. rewrite str_replace_ampersand. reflexivity.
  - exact (extract_songName_falsy kvs Hname).
Qed.

(** X8. Line 150, in full: the song link is "#" when "external_urls" is
    missing or falsy; otherwise it is whatever value the dictionary holds
    under "spotify", of any type; a non-empty dictionary without that key
    raises [KeyError] and a truthy value that is not a dictionary raises
    [TypeError]. *)
Theorem songURI_cases (kvs : list (string * value)) :
  extract_songURI (JObj kvs)
  = let urls := entry "external_urls" kvs in
    if negb (truthy urls) then Ok (JStr "#")
    else match urls with
         | JObj u => match assoc "spotify" u with
                     | Some link => Ok link
                     | None => Raise KeyError
                     end
         | _ => Raise TypeError
         end.
Proof.
  cbn zeta.
  destruct (truthy (entry "external_urls" kvs)) eqn:Hurls; cbn [negb].
  - unfold extract_songURI.
    rewrite (truthy_entry_dict _ _ Hurls), get_entry. cbn [rbind].
    rewrite Hurls, (item_str_entry _ _ Hurls). cbn [rbind].
    destruct (entry "external_urls" kvs); reflexivity.
  - exact (extract_songURI_falsy kvs Hurls).
Qed.

(** X9. The artist name and the artist link depend on the first element of
    "artists" alone: two tracks with the same first artist give the same
    two results, whatever their other artists and their other entries. *)
Theorem first_artist_only
    (kvs1 kvs2 : list (string * value)) (first : value)
    (rest1 rest2 : list value) :
  assoc "artists" kvs1 = Some (JArr (first :: rest1)) ->
  assoc "artists" kvs2 = Some (JArr (first :: rest2)) ->
  extract_artistName (JObj kvs1) = extract_artistName (JObj kvs2) /\
  extract_artistURI (JObj kvs1) = extract_artistURI (JObj kvs2).
Proof.
  intros H1 H2. split.
  - rewrite (extract_artistName_first kvs1 first rest1 H1).
    rewrite (extract_artistName_first kvs2 first rest2 H2). reflexivity.
  - rewrite (extract_artistURI_first kvs1 first rest1 H1).
    rewrite (extract_artistURI_first kvs2 first rest2 H2). reflexivity.
Qed.

Lemma first_artist_only_witness :
  let lead := JObj [("name", JStr "Artist A")] in
  extract_artistName
    (JObj [("artists", JArr [lead; JObj [("name", JStr "Artist B")]])])
  = extract_artistName (JObj [("name", JStr "Song A"); ("artists", JArr [lead])]).
Proof.
  intros lead.
  exact (proj1 (first_artist_only
                  [("artists", JArr [lead; JObj [("name", JStr "Artist B")]])]
                  [("name", JStr "Song A"); ("artists", JArr [lead])]
                  lead [JObj [("name", JStr "Artist B")]] []
                  eq_refl eq_refl)).
Defined.

(** ** [makeSVG] as a whole *)

Section WholeCard.

Variable w : World.

(** The dictionary built when the status, the URL and the fields are
    known. *)
Lemma makeSVG_dataDict_run
    (data item url : value) (st bg bd : string)
    (an sn su au : value) (n : nat) :
  resolve_status data = Ok (st, item) ->
  chosen_url item = Ok url ->
  extract_fields item = Ok (an, sn, su, au) ->
  makeSVG_dataDict w data bg bd n
  = (Ok {| artistName := an;
           songName := sn;
           songURI := su;
           artistURI := au;
           image := image_or_empty (fetched_image (requests_get w n url));
           status := st;
           background_color := bg;
           border_color := bd;
           songPalette := palette_or_default
                            (fetched_palette w 2 (requests_get w (S n) url)) |},
     S (S n)).
Proof.
  intros Hst Hurl Hfields. unfold makeSVG_dataDict, bind, lift.
  rewrite Hst, (resolve_artwork_run w item url n Hurl), Hfields. reflexivity.
Qed.

(** Every way [makeSVG_dataDict] can end. *)
Lemma makeSVG_dataDict_cases (data : value) (bg bd : string) (n : nat) :
  (exists e, resolve_status data = Raise e /\
             makeSVG_dataDict w data bg bd n = (Raise e, n)) \/
  (exists st item e,
     resolve_status data = Ok (st, item) /\ chosen_url item = Raise e /\
     makeSVG_dataDict w data bg bd n = (Raise e, n)) \/
  (exists st item url e,
     resolve_status data = Ok (st, item) /\ chosen_url item = Ok url /\
     extract_fields item = Raise e /\
     makeSVG_dataDict w data bg bd n = (Raise e, S (S n))) \/
  (exists st item url an sn su au,
     resolve_status data = Ok (st, item) /\ chosen_url item = Ok url /\
     extract_fields item = Ok (an, sn, su, au) /\
     makeSVG_dataDict w data bg bd n
     = (Ok {| artistName := an;
              songName := sn;
              songURI := su;
              artistURI := au;
              image := image_or_empty (fetched_image (requests_get w n url));
              status := st;
              background_color := bg;
              border_color := bd;
              songPalette :=
                palette_or_default
                  (fetched_palette w 2 (requests_get w (S n) url)) |},
        S (S n))).
Proof.
  destruct (resolve_status data) as [[st item]|e] eqn:Hst.
  2:{ left. exists e. split; [reflexivity|].
      unfold makeSVG_dataDict, bind, lift. rewrite Hst. reflexivity. }
  right.
  destruct (chosen_url item) as [url|e] eqn:Hurl.
  2:{ left. exists st, item, e. repeat split; try assumption.
      exact (makeSVG_dataDict_artwork_raises w data item st bg bd e n Hst Hurl). }
  right.
  destruct (extract_fields item) as [[[[an sn] su] au]|e] eqn:Hfields.
  - right. exists st, item, url, an, sn, su, au. repeat split; try assumption.
    exact (makeSVG_dataDict_run data item url st bg bd an sn su au n
             Hst Hurl Hfields).
  - left. exists st, item, url, e. repeat split; try assumption.
    exact (makeSVG_dataDict_fields_raise w data item url st bg bd e n
             Hst Hurl Hfields).
Qed.

End WholeCard.



Section LookupErrors.









End LookupErrors.





(** X10. A track with a non-empty name, a first artist that has a name and
    a "spotify" link, a "spotify" link of its own and at least two album
    images, the second with a "url", is shown as it is: the dictionary
    carries its names and links, the resolved status, and the image and
    palette fetched from the URL of the second image. *)
Theorem well_formed_track_is_shown
    (w : World) (data : value) (st bg bd : string) (n : nat)
    (kvs artist aurls urls album second : list (string * value))
    (name aname : string) (auri suri url first : value)
    (others images : list value) :
  resolve_status data = Ok (st, JObj kvs) ->
  assoc "name" kvs = Some (JStr name) -> name <> "" ->
  assoc "artists" kvs = Some (JArr (JObj artist :: others)) ->
  assoc "name" artist = Some (JStr aname) ->
  assoc "external_urls" artist = Some (JObj aurls) ->
  assoc "spotify" aurls = Some auri ->
  assoc "external_urls" kvs = Some (JObj urls) ->
  assoc "spotify" urls = Some suri ->
  assoc "album" kvs = Some (JObj album) ->
  assoc "images" album = Some (JArr (first :: JObj second :: images)) ->
  assoc "url" second = Some url ->
  makeSVG_dataDict w data bg bd n
  = (Ok {| artistName := JStr aname;
           songName := JStr name;
           songURI := suri;
           artistURI := auri;
           image := image_or_empty (fetched_image (requests_get w n url));
           status := st;
           background_color := bg;
           border_color := bd;
           songPalette := palette_or_default
                            (fetched_palette w 2 (requests_get w (S n) url)) |},
     S (S n)).
Proof.
  intros Hst Hname Hne Hartists Haname Haurls Hauri Hurls Hsuri
    Halbum Himages Hurl.
  apply (makeSVG_dataDict_run w data (JObj kvs) url st bg bd); [exact Hst| |].
  - exact (chosen_url_second_image kvs album first second images url
             Halbum Himages Hurl).
  - unfold extract_fields.
    rewrite (extract_artistName_first kvs (JObj artist) others Hartists).
    rewrite (item_str_assoc _ _ _ Haname). cbn [rbind].
    unfold Py.replace at 1. rewrite str_replace_ampersand. cbn [rbind].
    pose proof (songName_value kvs name Hname Hne) as Hsong.
    rewrite Hsong. cbn [rbind].
    rewrite (songURI_value kvs urls suri Hurls Hsuri). cbn [rbind].
    rewrite (extract_artistURI_first kvs (JObj artist) others Hartists).
    rewrite get_entry, (entry_of_assoc _ _ _ Haurls). cbn [rbind].
    rewrite (truthy_nonempty_dict aurls (assoc_some_nonempty _ _ _ Hauri)).
    rewrite (item_str_assoc _ _ _ Haurls). cbn [rbind].
    rewrite (item_str_assoc _ _ _ Hauri). reflexivity.
Qed.

Lemma well_formed_track_is_shown_witness :
  fst (makeSVG_dataDict (Examples.world_up Examples.payload_a)
         Examples.payload_a "181414" "181414" 0%nat)
  = Ok {| artistName := JStr "Artist A";
          songName := JStr "Song A";
          songURI := JStr "u2";
          artistURI := JStr "u1";
          image := "TWFu";
          status := "playing";
          background_color := "181414";
          border_color := "181414";
          songPalette := [(1, 2, 3); (4, 5, 6)] |}.
Proof.
  refine (f_equal fst
            (well_formed_track_is_shown
               (Examples.world_up Examples.payload_a) Examples.payload_a
               "playing" "181414" "181414" 0%nat
               [("name", JStr "Song A");
                ("artists",
                 JArr [JObj [("name", JStr "Artist A");
                             ("external_urls", JObj [("spotify", JStr "u1")])]]);
                ("album", JObj [("images", JArr [JObj [("url", JStr "big")];
                                                JObj [("url", JStr "img")]])]);
                ("external_urls", JObj [("spotify", JStr "u2")])]
               [("name", JStr "Artist A");
                ("external_urls", JObj [("spotify", JStr "u1")])]
               [("spotify", JStr "u1")]
               [("spotify", JStr "u2")]
               [("images", JArr [JObj [("url", JStr "big")];
                                 JObj [("url", JStr "img")]])]
               [("url", JStr "img")]
               "Song A" "Artist A" (JStr "u1") (JStr "u2") (JStr "img")
               (JObj [("url", JStr "big")]) [] []
               eq_refl eq_refl _ eq_refl eq_refl eq_refl eq_refl eq_refl
               eq_refl eq_refl eq_refl eq_refl)).
  discriminate.
Defined.

(** X11. Whenever [makeSVG] gets as far as its dictionary, exactly two
    requests were made, both to one URL, and they determine the image and
    the palette; the two colours of the query are passed on unchanged; the
    status is [offline], [recent] or [playing]; and with [offline] every
    display field holds its fallback. *)
Theorem dataDict_invariant
    (w : World) (data : value) (bg bd : string) (n n' : nat) (d : DataDict) :
  makeSVG_dataDict w data bg bd n = (Ok d, n') ->
  n' = S (S n) /\
  background_color d = bg /\
  border_color d = bd /\
  (status d = "offline" \/ status d = "recent" \/ status d = "playing") /\
  (status d = "offline" -> fallback_fields d) /\
  exists url,
    image d = image_or_empty (fetched_image (requests_get w n url)) /\
    songPalette d
    = palette_or_default (fetched_palette w 2 (requests_get w (S n) url)).
Proof.
  intros Hrun.
  destruct (makeSVG_dataDict_cases w data bg bd n)
    as [(e & _ & H) | [(st & item & e & _ & _ & H)
       | [(st & item & url & e & _ & _ & _ & H)
       | (st & item & url & an & sn & su & au & Hst & Hurl & Hfields & H)]]];
    rewrite H in Hrun; try discriminate Hrun.
  injection Hrun as <- <-. cbn [background_color border_color status image
                                  songPalette].
  destruct (resolve_status_shape data item st Hst) as (Hkw & _ & Hoff & _).
  split; [reflexivity|].
  split; [reflexivity|].
  split; [reflexivity|].
  split; [exact Hkw|].
  split.
  - intros ->. rewrite (Hoff eq_refl) in Hfields.
    rewrite extract_fields_absent in Hfields. injection Hfields as <- <- <- <-.
    repeat split.
  - exists url. split; reflexivity.
Qed.

Lemma dataDict_invariant_witness :
  fallback_fields
    {| artistName := JStr "Unknown Artist";
       songName := JStr "Unknown Song";
       songURI := JStr "#";
       artistURI := JStr "#";
       image := "";
       status := "offline";
       background_color := "181414";
       border_color := "181414";
       songPalette := DEFAULT_PALETTE |}.
Proof.
  exact (proj1 (proj2 (proj2 (proj2 (proj2
    (dataDict_invariant Examples.world_down JNull "181414" "181414" 0%nat 2%nat _
       eq_refl))))) eq_refl).
Defined.



(** X13. Any track whose album holds exactly one image raises [IndexError]
    at line 128, before any request is made. *)
Theorem one_image_raises
    (w : World) (kvs album : list (string * value)) (only : value) (n : nat) :
  assoc "album" kvs = Some (JObj album) ->
  assoc "images" album = Some (JArr [only]) ->
  chosen_url (JObj kvs) = Raise IndexError /\
  resolve_artwork w (JObj kvs) n = (Raise IndexError, n).
Proof.
  intros Halbum Himages.
  assert (Hurl : chosen_url (JObj kvs) = Raise IndexError).
  { unfold chosen_url, has_artwork, artwork_url.
    rewrite (truthy_nonempty_dict kvs (assoc_some_nonempty _ _ _ Halbum)).
    rewrite get_entry, (entry_of_assoc _ _ _ Halbum). cbn [rbind].
    rewrite (truthy_nonempty_dict album (assoc_some_nonempty _ _ _ Himages)).
    rewrite !(item_str_assoc _ _ _ Halbum). cbn [rbind].
    rewrite get_entry, (entry_of_assoc _ _ _ Himages). cbn [rbind truthy].
    rewrite (item_str_assoc _ _ _ Himages). reflexivity. }
  split; [exact Hurl|].
  exact (resolve_artwork_raise w (JObj kvs) IndexError n Hurl).
Qed.

Lemma one_image_raises_witness :
  chosen_url (JObj [("album", JObj [("images", JArr [JStr "cover"])])])
  = Raise IndexError.
Proof.
  exact (proj1 (one_image_raises Examples.world_down
                  [("album", JObj [("images", JArr [JStr "cover"])])]
                  [("images", JArr [JStr "cover"])] (JStr "cover") 0%nat
                  eq_refl eq_refl)).
Defined.

(** ** The handler, end to end *)

Section HandlerCases.

Variable w : World.

Definition served (svg : string) : Response :=
  {| resp_status := 200;
     resp_body := svg;
     resp_mimetype := "image/svg+xml";
     resp_headers :=
       [("Cache-Control", "s-maxage=1, stale-while-revalidate")] |}.

(** [catch_all] without the plumbing: the upstream request is the first of
    the request, [makeSVG] starts at the second. *)
Lemma catch_all_run (req : Request) :
  catch_all w req 0%nat
  = match upstream_payload w (requests_get w 0 (JStr NOW_PLAYING_URL)) with
    | Raise e => (Raise e, 1%nat)
    | Ok data =>
        match makeSVG_dataDict w data
                (arg_default (arg_background_color req) "181414")
                (arg_default (arg_border_color req) "181414") 1%nat with
        | (Raise e, n') => (Raise e, n')
        | (Ok d, n') =>
            match render_template w
                    (getTemplate w (arg_value (arg_theme req))) d with
            | Ok svg => (Ok (served svg), n')
            | Raise e => (Raise e, n')
            end
        end
    end.
Proof.
  unfold catch_all. unfold bind at 1. rewrite get_run.
  destruct (upstream_payload w _) as [data|e]; [|reflexivity].
  unfold makeSVG, bind.
  destruct (makeSVG_dataDict w data _ _ 1%nat) as [[d|e] n']; [|reflexivity].
  unfold lift.
  destruct (render_template w _ d); reflexivity.
Qed.

End HandlerCases.

(** X14. When the upstream answers with any status other than 200, its body
    is not read: the offline card (fallback names and links, the query's
    colours, the placeholder image and its palette) is handed to the
    selected template after three requests in all, and what the template
    renders is served with status 200. *)
Theorem upstream_error_status_served_offline
    (w : World) (req : Request) (code : Z) (content : list byte) :
  requests_get w 0 (JStr NOW_PLAYING_URL) = HttpResponse code content ->
  code <> 200 ->
  catch_all w req 0%nat
  = match render_template w (getTemplate w (arg_value (arg_theme req)))
            {| artistName := JStr "Unknown Artist";
               songName := JStr "Unknown Song";
               songURI := JStr "#";
               artistURI := JStr "#";
               image := image_or_empty
                          (fetched_image
                             (requests_get w 1 (JStr PLACEHOLDER_URL)));
               status := "offline";
               background_color :=
                 arg_default (arg_background_color req) "181414";
               border_color := arg_default (arg_border_color req) "181414";
               songPalette := palette_or_default
                                (fetched_palette w 2
                                   (requests_get w 2 (JStr PLACEHOLDER_URL))) |}
    with
    | Ok svg => (Ok (served svg), 3%nat)
    | Raise e => (Raise e, 3%nat)
    end.
Proof.
  intros Hup Hcode. rewrite catch_all_run, Hup.
  unfold upstream_payload.
  destruct (Z.eqb_spec code 200) as [->|_]; [congruence|].
  rewrite (makeSVG_dataDict_without_item w JNull "offline" _ _ 1%nat eq_refl).
  reflexivity.
Qed.

Lemma upstream_error_status_served_offline_witness :
  fst (catch_all (Examples.world_with (HttpResponse 503 []) None)
         (mkRequest (Some "000000") None None) 0%nat)
  = Ok (served "<svg/>").
Proof.
  refine (f_equal fst
            (upstream_error_status_served_offline
               (Examples.world_with (HttpResponse 503 []) None)
               (mkRequest (Some "000000") None None) 503 [] eq_refl _)).
  discriminate.
Defined.

(** X15. Every response [catch_all] returns has status 200 and the SVG media
    type and carries the header
    [Cache-Control: s-maxage=1, stale-while-revalidate] of line 184; it was
    produced with exactly three requests; its body is what the selected
    template rendered from a dictionary whose two colours are the query's, or
    "181414" where the query gives none. *)
Theorem served_response_shape
    (w : World) (req : Request) (resp : Response) (n' : nat) :
  catch_all w req 0%nat = (Ok resp, n') ->
  n' = 3%nat /\
  resp_status resp = 200 /\
  resp_mimetype resp = "image/svg+xml" /\
  In ("Cache-Control", "s-maxage=1, stale-while-revalidate")
     (resp_headers resp) /\
  exists d : DataDict,
    render_template w (getTemplate w (arg_value (arg_theme req))) d
    = Ok (resp_body resp) /\
    background_color d = arg_default (arg_background_color req) "181414" /\
    border_color d = arg_default (arg_border_color req) "181414".
Proof.
  rewrite catch_all_run.
  destruct (upstream_payload w _) as [data|e]; [|discriminate].
  destruct (makeSVG_dataDict_cases w data
              (arg_default (arg_background_color req) "181414")
              (arg_default (arg_border_color req) "181414") 1%nat)
    as [(e & _ & H) | [(st & item & e & _ & _ & H)
       | [(st & item & url & e & _ & _ & _ & H)
       | (st & item & url & an & sn & su & au & _ & _ & _ & H)]]];
    rewrite H; try discriminate.
  match goal with
  | |- context [render_template w ?t ?d] =>
      destruct (render_template w t d) as [svg|e] eqn:Hrender
  end; [|discriminate].
  intros [= <- <-].
  split; [reflexivity|].
  split; [reflexivity|].
  split; [reflexivity|].
  split; [left; reflexivity|].
  eexists. split; [exact Hrender|]. split; reflexivity.
Qed.

Lemma served_response_shape_witness :
  resp_status (served "<svg/>") = 200.
Proof.
  exact (proj1 (proj2
    (served_response_shape (Examples.world_up Examples.payload_a)
       (mkRequest None None (Some "dark")) (served "<svg/>") 3%nat eq_refl))).
Defined.

(** ** The encoded image *)

Section Encoding.

Import Base64.

Definition b64_char (c : ascii) : bool :=
  existsb (Ascii.eqb c) (list_ascii_of_string alphabet) || Ascii.eqb c pad.

Lemma get_in (s : string) (i : nat) (c : ascii) :
  String.get i s = Some c -> In c (list_ascii_of_string s).
Proof.
  revert i. induction s as [|a s IH]; intros i; [discriminate|].
  destruct i as [|i]; cbn [String.get list_ascii_of_string].
  - intros [= ->]. left. reflexivity.
  - intros H. right. exact (IH i H).
Qed.

Lemma digit_b64_char (n : N) : b64_char (digit n) = true.
Proof.
  unfold b64_char, digit.
  destruct (String.get (N.to_nat n) alphabet) as [c|] eqn:Hget.
  - apply orb_true_iff. left. apply existsb_exists.
    exists c. split; [exact (get_in _ _ _ Hget) | apply Ascii.eqb_refl].
  - reflexivity.
Qed.

Lemma b64encode_chars (bs : list byte) :
  forallb b64_char (list_ascii_of_string (b64encode bs)) = true.
Proof.
  revert bs. fix IH 1.
  intros [|a [|b [|c rest]]].
  - reflexivity.
  - cbn [b64encode list_ascii_of_string forallb].
    rewrite !digit_b64_char. reflexivity.
  - cbn [b64encode list_ascii_of_string forallb].
    rewrite !digit_b64_char. reflexivity.
  - cbn [b64encode list_ascii_of_string forallb].
    rewrite !digit_b64_char, (IH rest). reflexivity.
Qed.

Lemma b64encode_length (bs : list byte) :
  String.length (b64encode bs) = (4 * ((List.length bs + 2) / 3))%nat.
Proof.
  revert bs. fix IH 1.
  intros [|a [|b [|c rest]]]; try reflexivity.
  cbn [b64encode String.length List.length].
  rewrite (IH rest).
  replace (S (S (S (List.length rest))) + 2)%nat
    with ((List.length rest + 2) + 1 * 3)%nat by lia.
  rewrite Nat.div_add by lia. lia.
Qed.

(** The decoder of the same alphabet, to read an encoding back. *)
Fixpoint index_of (c : ascii) (s : string) (i : N) : option N :=
  match s with
  | EmptyString => None
  | String a s' => if Ascii.eqb c a then Some i else index_of c s' (i + 1)%N
  end.

Definition digit_value (c : ascii) : option N := index_of c alphabet 0%N.

Fixpoint b64decode (s : string) : option (list byte) :=
  match s with
  | EmptyString => Some []
  | String c1 (String c2 (String c3 (String c4 rest))) =>
      match digit_value c1, digit_value c2 with
      | Some d1, Some d2 =>
          if Ascii.eqb c3 pad then
            match rest, Byte.of_N (d1 * 4 + d2 / 16) with
            | EmptyString, Some b1 =>
                if Ascii.eqb c4 pad then Some [b1] else None
            | _, _ => None
            end
          else
            match digit_value c3 with
            | Some d3 =>
                if Ascii.eqb c4 pad then
                  match rest, Byte.of_N (d1 * 4 + d2 / 16),
                        Byte.of_N ((d2 mod 16) * 16 + d3 / 4) with
                  | EmptyString, Some b1, Some b2 => Some [b1; b2]
                  | _, _, _ => None
                  end
                else
                  match digit_value c4, Byte.of_N (d1 * 4 + d2 / 16),
                        Byte.of_N ((d2 mod 16) * 16 + d3 / 4) with
                  | Some d4, Some b1, Some b2 =>
                      match Byte.of_N ((d3 mod 4) * 64 + d4),
                            b64decode rest with
                      | Some b3, Some tl => Some (b1 :: b2 :: b3 :: tl)
                      | _, _ => None
                      end
                  | _, _, _ => None
                  end
            | None => None
            end
      | _, _ => None
      end
  | _ => None
  end%N.

Lemma digit_value_digit (n : N) :
  (n < 64)%N ->
  digit_value (digit n) = Some n /\ Ascii.eqb (digit n) pad = false.
Proof.
  intros H.
  assert (exists k, (k < 64)%nat /\ n = N.of_nat k) as (k & Hk & ->)
    by (exists (N.to_nat n); lia).
  clear H.
  do 64 (destruct k as [|k]; [split; vm_compute; reflexivity|]).
  lia.
Qed.

(** Three bytes cut into four digits, and put together again. *)
Lemma regroup (x y z : N) :
  (x <= 255 -> y <= 255 -> z <= 255 ->
   let d1 := x / 4 in
   let d2 := (x mod 4) * 16 + y / 16 in
   let d3 := (y mod 16) * 4 + z / 64 in
   let d4 := z mod 64 in
   d1 < 64 /\ d2 < 64 /\ d3 < 64 /\ d4 < 64 /\
   d1 * 4 + d2 / 16 = x /\
   (d2 mod 16) * 16 + d3 / 4 = y /\
   (d3 mod 4) * 64 + d4 = z)%N.
Proof.
  intros Hx Hy Hz. cbv zeta.
  repeat split; zify; Z.to_euclidean_division_equations; lia.
Qed.

Lemma b64decode_b64encode (bs : list byte) :
  b64decode (b64encode bs) = Some bs.
Proof.
  revert bs. fix IH 1.
  intros [|a [|b [|c rest]]]; [reflexivity| | |].
  - pose proof (regroup (Byte.to_N a) 0 0 (Byte.to_N_bounded a)
                  ltac:(vm_compute; discriminate)
                  ltac:(vm_compute; discriminate))
      as (H1 & H2 & _ & _ & E1 & _ & _).
    cbn zeta in *. change (0 / 16)%N with 0%N in *.
    rewrite N.add_0_r in H2, E1.
    cbn [b64encode b64decode].
    rewrite (proj1 (digit_value_digit _ H1)), (proj1 (digit_value_digit _ H2)).
    rewrite Ascii.eqb_refl, E1, Byte.of_to_N. reflexivity.
  - pose proof (regroup (Byte.to_N a) (Byte.to_N b) 0
                  (Byte.to_N_bounded a) (Byte.to_N_bounded b)
                  ltac:(vm_compute; discriminate))
      as (H1 & H2 & H3 & _ & E1 & E2 & _).
    cbn zeta in *. change (0 / 64)%N with 0%N in *.
    rewrite N.add_0_r in H3, E2.
    cbn [b64encode b64decode].
    rewrite (proj1 (digit_value_digit _ H1)), (proj1 (digit_value_digit _ H2)).
    rewrite (proj2 (digit_value_digit _ H3)).
    rewrite (proj1 (digit_value_digit _ H3)).
    rewrite Ascii.eqb_refl, E1, E2, !Byte.of_to_N. reflexivity.
  - pose proof (regroup (Byte.to_N a) (Byte.to_N b) (Byte.to_N c)
                  (Byte.to_N_bounded a) (Byte.to_N_bounded b)
                  (Byte.to_N_bounded c))
      as (H1 & H2 & H3 & H4 & E1 & E2 & E3).
    cbn zeta in *.
    cbn [b64encode b64decode].
    rewrite (proj1 (digit_value_digit _ H1)), (proj1 (digit_value_digit _ H2)).
    rewrite (proj2 (digit_value_digit _ H3)).
    rewrite (proj1 (digit_value_digit _ H3)).
    rewrite (proj2 (digit_value_digit _ H4)).
    rewrite (proj1 (digit_value_digit _ H4)).
    rewrite E1, E2, E3, !Byte.of_to_N, (IH rest). reflexivity.
Qed.

(** Two bodies with one encoding are the same body. *)
Lemma b64encode_injective (bs bs' : list byte) :
  b64encode bs = b64encode bs' -> bs = bs'.
Proof.
  intros H. apply (f_equal b64decode) in H.
  rewrite !b64decode_b64encode in H. injection H as ->. reflexivity.
Qed.

End Encoding.

(** X16. [loadImageB64] makes one request and returns text only for a
    response whose status is not 4xx or 5xx; the text is the base64 encoding
    of the body of that response, and it determines the body: no other
    sequence of bytes has the same encoding. *)
Theorem loaded_image_is_base64
    (w : World) (url : value) (n n' : nat) (s : string) :
  loadImageB64 w url n = (Ok (Some s), n') ->
  exists code content,
    requests_get w n url = HttpResponse code content /\
    http_failed (requests_get w n url) = false /\
    n' = S n /\
    s = Base64.b64encode content /\
    forall other, Base64.b64encode other = s -> other = content.
Proof.
  rewrite loadImageB64_run. unfold fetched_image, http_failed.
  destruct (requests_get w n url) as [|code content]; [discriminate|].
  destruct ((400 <=? code) && (code <? 600)); [discriminate|].
  intros [= <- <-].
  exists code, content.
  split; [reflexivity|].
  split; [reflexivity|].
  split; [reflexivity|].
  split; [reflexivity|].
  intros other Hsame. exact (b64encode_injective other content Hsame).
Qed.

Lemma loaded_image_is_base64_witness :
  exists code content,
    requests_get (Examples.world_up JNull) 0 (JStr "img")
    = HttpResponse code content /\
    http_failed (requests_get (Examples.world_up JNull) 0 (JStr "img")) = false /\
    1%nat = 1%nat /\
    "TWFu" = Base64.b64encode content /\
    forall other, Base64.b64encode other = "TWFu" -> other = content.
Proof.
  exact (loaded_image_is_base64 (Examples.world_up JNull) (JStr "img")
           0%nat 1%nat "TWFu" eq_refl).
Defined.

(** X17. A track without usable "name", "artists", "external_urls" and
    "album" entries (each missing or falsy) keeps the status that was
    resolved for it, [playing] included, while all four display fields take
    their fallbacks and the placeholder image is fetched. *)
Theorem bare_track_falls_back
    (w : World) (data : value) (st bg bd : string)
    (kvs : list (string * value)) (n : nat) :
  resolve_status data = Ok (st, JObj kvs) ->
  truthy (entry "name" kvs) = false ->
  truthy (entry "artists" kvs) = false ->
  truthy (entry "external_urls" kvs) = false ->
  truthy (entry "album" kvs) = false ->
  exists d : DataDict,
    makeSVG_dataDict w data bg bd n = (Ok d, S (S n)) /\
    status d = st /\
    fallback_fields d /\
    image d
    = image_or_empty (fetched_image (requests_get w n (JStr PLACEHOLDER_URL))) /\
    songPalette d
    = palette_or_default
        (fetched_palette w 2 (requests_get w (S n) (JStr PLACEHOLDER_URL))).
Proof.
  intros Hst Hname Hartists Hurls Halbum.
  eexists. split.
  - apply (makeSVG_dataDict_run w data (JObj kvs) (JStr PLACEHOLDER_URL)
             st bg bd); [exact Hst| |].
    + apply chosen_url_placeholder. left. exact Halbum.
    + unfold extract_fields.
      rewrite (extract_artistName_falsy kvs Hartists),
        (extract_songName_falsy kvs Hname),
        (extract_songURI_falsy kvs Hurls),
        (extract_artistURI_falsy kvs Hartists).
      reflexivity.
  - repeat split.
Qed.

Lemma bare_track_falls_back_witness :
  exists d : DataDict,
    makeSVG_dataDict Examples.world_down
      (JObj [("is_playing", JBool true); ("item", JObj [("id", JStr "t1")])])
      "181414" "181414" 0%nat = (Ok d, 2%nat) /\
    status d = "playing" /\
    fallback_fields d.
Proof.
  destruct (bare_track_falls_back Examples.world_down
              (JObj [("is_playing", JBool true);
                     ("item", JObj [("id", JStr "t1")])])
              "playing" "181414" "181414" [("id", JStr "t1")] 0%nat
              eq_refl eq_refl eq_refl eq_refl eq_refl)
    as (d & Hrun & Hstatus & Hfields & _).
  exists d. split; [exact Hrun|]. split; [exact Hstatus | exact Hfields].
Defined.
